(** * fm: the interactive controller ([src/update.go])

  A shallow embedding of the controller of the terminal file browser:
  the [model] record, [fixCursor], [fixViewport] and [Update], together
  with the small part of the Bubble Tea widgets ([viewport], [textinput])
  and of the message types that [Update] touches.

  Go's [int] is a 64-bit two's complement integer; it is embedded as [Z]
  and every arithmetic operation of the source wraps explicitly. *)

From Stdlib Require Import ZArith List String Ascii Bool Lia.
From Stdlib Require Strings.Byte.
From Stdlib Require Import DecimalString.
Import ListNotations.
Open Scope string_scope.
Open Scope Z_scope.

(* ================================================================== *)
(** ** Go integers *)

Module GoInt.

Definition min_int : Z := - 2 ^ 63.
Definition max_int : Z := 2 ^ 63 - 1.

(** Two's complement wrap-around of a mathematical integer. *)
Definition wrap (z : Z) : Z := (z - min_int) mod 2 ^ 64 + min_int.

Definition add (a b : Z) : Z := wrap (a + b).
Definition sub (a b : Z) : Z := wrap (a - b).

Definition in_range (z : Z) : Prop := min_int <= z <= max_int.

(** [len(s)] of a Go slice. *)
Definition len {A : Type} (l : list A) : Z := Z.of_nat (List.length l).

(** [s[i]]: indexing a slice panics outside of [0 <= i < len(s)]. *)
Definition index {A : Type} (l : list A) (i : Z) : option A :=
  if i <? 0 then None else nth_error l (Z.to_nat i).

(** [s[low:high]] of a slice whose capacity is its length: the slice
    expression panics unless [0 <= low <= high <= len(s)]. *)
Definition slice {A : Type} (l : list A) (low high : Z) : option (list A) :=
  if (0 <=? low) && (low <=? high) && (high <=? len l)
  then Some (firstn (Z.to_nat (high - low)) (skipn (Z.to_nat low) l))
  else None.

End GoInt.

(* ================================================================== *)
(** ** Bubble Tea messages ([tea.KeyMsg], [tea.WindowSizeMsg], ...) *)

Module tea.

Inductive KeyType : Type :=
| KeyRunes | KeyCtrlC | KeyEnter | KeyEsc | KeyBackspace | KeyTab
| KeyUp | KeyDown | KeyLeft | KeyRight | KeyDelete | KeyHome | KeyEnd.

(** [tea.Key]: a key press is a key type, the typed characters when the
    type is [KeyRunes], and the alt modifier. *)
Record Key : Type := mkKey { Type_ : KeyType; Runes : string; Alt : bool }.

(** The library's table [keyNames]. *)
Definition keyNames (t : KeyType) : string :=
  match t with
  | KeyRunes => "runes"
  | KeyCtrlC => "ctrl+c"
  | KeyEnter => "enter"
  | KeyEsc => "esc"
  | KeyBackspace => "backspace"
  | KeyTab => "tab"
  | KeyUp => "up"
  | KeyDown => "down"
  | KeyLeft => "left"
  | KeyRight => "right"
  | KeyDelete => "delete"
  | KeyHome => "home"
  | KeyEnd => "end"
  end.

(** [func (k Key) String() string]: ["alt+"] when the modifier is set,
    followed by the runes of a [KeyRunes] key or by the key's name. *)
Definition String (k : Key) : string :=
  (if Alt k then "alt+" else EmptyString) ++
  (match Type_ k with
   | KeyRunes => Runes k
   | t => keyNames t
   end).

Inductive MouseEventType : Type :=
| MouseWheelUp | MouseWheelDown | MouseLeft | MouseRelease | MouseMotion.

(** [tea.Msg] is Go's empty interface.  The dynamic types that reach the
    controller are the library's key, mouse and window-size messages and
    the application's own message types, the parameter [A]. *)
Inductive Msg (A : Type) : Type :=
| KeyMsg (k : Key)
| MouseMsg (t : MouseEventType)
| WindowSizeMsg (Width Height : Z)
| AppMsg (a : A).
Arguments KeyMsg {A} k.
Arguments MouseMsg {A} t.
Arguments WindowSizeMsg {A} Width Height.
Arguments AppMsg {A} a.

(** [tea.Cmd] as far as [Update] produces it: [nil], [tea.Quit], or the
    [tea.Batch] of the text input's command. *)
Inductive Cmd : Type := Nil | Quit | Batch.

(** Keys the way a terminal sends them. *)
Definition rune (s : string) : Key := mkKey KeyRunes s false.
Definition special (t : KeyType) : Key := mkKey t EmptyString false.

End tea.

(* ================================================================== *)
(** ** [viewport.Model] of charmbracelet/bubbles

  The widget is a third-party collaborator.  Its state and the methods
  used by the controller ([LineUp], [LineDown], [SetContent]) are
  transcribed from the library.  The scrolling methods return the lines
  that came into view; the controller discards them, but the slice
  expression that computes them can panic, so it is part of the model.
  [GotoBottom] is modelled by its effect on the offset only. *)

Module viewport.
Import GoInt.

Record Model : Type := mkModel {
  Width : Z;
  Height : Z;
  YOffset : Z;
  YPosition : Z;
  lines : list string
}.

(** The zero value with the two fields given by a composite literal
    [viewport.Model{Width: w, Height: h}]. *)
Definition literal (w h : Z) : Model := mkModel w h 0 0 [].

Definition set_YOffset (y : Z) (m : Model) : Model :=
  mkModel (Width m) (Height m) y (YPosition m) (lines m).
Definition set_YPosition (y : Z) (m : Model) : Model :=
  mkModel (Width m) (Height m) (YOffset m) y (lines m).
Definition set_lines (l : list string) (m : Model) : Model :=
  mkModel (Width m) (Height m) (YOffset m) (YPosition m) l.

(** [return m.YOffset <= 0] *)
Definition AtTop (m : Model) : bool := YOffset m <=? 0.

(** [return m.YOffset >= len(m.lines)-1-m.Height] *)
Definition AtBottom (m : Model) : bool :=
  YOffset m >=? sub (sub (len (lines m)) 1) (Height m).

(** [m.YOffset = max(len(m.lines)-1-m.Height, 0)] *)
Definition GotoBottom (m : Model) : Model :=
  set_YOffset (Z.max (sub (sub (len (lines m)) 1) (Height m)) 0) m.

(** [LineDown(n) (lines []string)]: nothing at the bottom or for
    [n == 0]; otherwise scroll by [min(n, maxDelta)] with
    [maxDelta = (len(m.lines)-1) - (m.YOffset+m.Height)] and, when there
    is content, return the lines that came into view,
    [m.lines[top:bottom]] with [top = max(m.YOffset+m.Height-n, 0)] and
    [bottom = min(m.YOffset+m.Height, len(m.lines)-1)].  [None] is the
    panic of that slice expression. *)
Definition LineDown (n : Z) (m : Model) : option (Model * list string) :=
  if AtBottom m || (n =? 0) then Some (m, [])
  else
    let maxDelta :=
      sub (sub (len (lines m)) 1) (add (YOffset m) (Height m)) in
    let n := Z.min n maxDelta in
    let m := set_YOffset (add (YOffset m) n) m in
    if len (lines m) >? 0 then
      let top := Z.max (sub (add (YOffset m) (Height m)) n) 0 in
      let bottom :=
        Z.min (add (YOffset m) (Height m)) (sub (len (lines m)) 1) in
      match slice (lines m) top bottom with
      | Some shown => Some (m, shown)
      | None => None
      end
    else Some (m, []).

(** [LineUp(n) (lines []string)]: nothing at the top or for [n == 0];
    otherwise scroll by [min(n, m.YOffset)] and, when there is content,
    return [m.lines[top:bottom]] with [top = max(0, m.YOffset)] and
    [bottom = min(m.YOffset+n, len(m.lines)-1)].  [None] is the panic of
    that slice expression. *)
Definition LineUp (n : Z) (m : Model) : option (Model * list string) :=
  if AtTop m || (n =? 0) then Some (m, [])
  else
    let n := Z.min n (YOffset m) in
    let m := set_YOffset (sub (YOffset m) n) m in
    if len (lines m) >? 0 then
      let top := Z.max 0 (YOffset m) in
      let bottom := Z.min (add (YOffset m) n) (sub (len (lines m)) 1) in
      match slice (lines m) top bottom with
      | Some shown => Some (m, shown)
      | None => None
      end
    else Some (m, []).

(** [strings.Replace(s, "\r\n", "\n", -1)] *)
Fixpoint normalize (s : string) : string :=
  match s with
  | EmptyString => EmptyString
  | String c rest =>
      match rest with
      | String d _ =>
          if (Ascii.eqb c "013" && Ascii.eqb d "010")%bool
          then normalize rest
          else String c (normalize rest)
      | EmptyString => String c EmptyString
      end
  end.

(** [strings.Split(s, "\n")]: the current line is accumulated in [cur];
    a split always yields at least one line. *)
Fixpoint split_from (cur : string) (s : string) : list string :=
  match s with
  | EmptyString => [cur]
  | String c rest =>
      if Ascii.eqb c "010" then cur :: split_from EmptyString rest
      else split_from (cur ++ String c EmptyString) rest
  end.
Definition Split (s : string) : list string := split_from EmptyString s.

(** [SetContent(s)]: store the lines of [s]; a viewport scrolled past
    the new content goes to the bottom. *)
Definition SetContent (s : string) (m : Model) : Model :=
  let m := set_lines (Split (normalize s)) m in
  if YOffset m >? sub (len (lines m)) 1 then GotoBottom m else m.

End viewport.

(* ================================================================== *)
(** ** [textinput.Model] of charmbracelet/bubbles

    Also a third-party collaborator.  The controller only calls [Focus],
    [Blur], [Focused], [Value], assigns [Placeholder], and forwards every
    message to the widget's own [Update].  The embedding keeps the buffer,
    the caret and the focus flag.  Of the editing keys, plain characters,
    backspace, delete and the caret movements are modelled; the word-wise
    shortcuts (alt and ctrl chords) leave the model as it is.  The proofs
    below use of the editing only that it changes neither the focus nor
    the placeholder. *)

Module textinput.

Record Model : Type := mkModel {
  Prompt : string;
  Placeholder : string;
  CharLimit : Z;
  Width : Z;
  value : string;
  pos : nat;
  focus : bool
}.

(** [textinput.NewModel()] *)
Definition NewModel : Model := mkModel "> " EmptyString 0 0 EmptyString 0 false.

Definition set_Prompt (p : string) (m : Model) : Model :=
  mkModel p (Placeholder m) (CharLimit m) (Width m) (value m) (pos m) (focus m).
Definition set_Placeholder (p : string) (m : Model) : Model :=
  mkModel (Prompt m) p (CharLimit m) (Width m) (value m) (pos m) (focus m).
Definition set_CharLimit (n : Z) (m : Model) : Model :=
  mkModel (Prompt m) (Placeholder m) n (Width m) (value m) (pos m) (focus m).
Definition set_Width (n : Z) (m : Model) : Model :=
  mkModel (Prompt m) (Placeholder m) (CharLimit m) n (value m) (pos m)
          (focus m).
Definition set_buffer (v : string) (p : nat) (m : Model) : Model :=
  mkModel (Prompt m) (Placeholder m) (CharLimit m) (Width m) v p (focus m).
Definition set_focus (b : bool) (m : Model) : Model :=
  mkModel (Prompt m) (Placeholder m) (CharLimit m) (Width m) (value m)
          (pos m) b.

Definition Value (m : Model) : string := value m.
Definition Focused (m : Model) : bool := focus m.
Definition Focus (m : Model) : Model := set_focus true m.
Definition Blur (m : Model) : Model := set_focus false m.

Definition before (m : Model) : string := substring 0 (pos m) (value m).
Definition after (m : Model) : string :=
  substring (pos m) (String.length (value m) - pos m) (value m).

(** How a focused widget reacts to one key press: the editing keys move
    the caret or remove a character, typed runes are inserted at the
    caret while the buffer is shorter than the character limit.  The
    word motions the widget binds to alt chords are not modelled: a key
    with the alt modifier leaves the buffer as it is. *)
Definition edit (k : tea.Key) (m : Model) : Model :=
  if tea.Alt k then m else
  match tea.Type_ k with
  | tea.KeyBackspace =>
      if (0 <? pos m)%nat
      then set_buffer (substring 0 (pos m - 1) (value m) ++ after m)
                      (pos m - 1) m
      else m
  | tea.KeyDelete =>
      if (pos m <? String.length (value m))%nat
      then set_buffer
             (before m ++
              substring (pos m + 1) (String.length (value m) - pos m - 1)
                        (value m))
             (pos m) m
      else m
  | tea.KeyLeft => set_buffer (value m) (pos m - 1) m
  | tea.KeyRight =>
      set_buffer (value m) (Nat.min (pos m + 1) (String.length (value m))) m
  | tea.KeyHome => set_buffer (value m) 0 m
  | tea.KeyEnd => set_buffer (value m) (String.length (value m)) m
  | tea.KeyRunes =>
      if (CharLimit m <=? 0)
         || (Z.of_nat (String.length (value m)) <? CharLimit m)
      then
        let v := before m ++ tea.Runes k ++ after m in
        set_buffer v (Nat.min (pos m + String.length (tea.Runes k))
                              (String.length v)) m
      else m
  | _ => m
  end.

(** [func (m Model) Update(msg tea.Msg) (Model, tea.Cmd)]: a widget
    without focus ignores every message; a focused one edits its buffer
    on key presses and ignores the other messages.  The returned command
    (the caret blink) carries no data of the model and is dropped. *)
Definition Update {A : Type} (m : Model) (msg : tea.Msg A) : Model :=
  if negb (focus m) then m
  else match msg with
       | tea.KeyMsg k => edit k m
       | _ => m
       end.

End textinput.

(* ================================================================== *)
(** ** The [filesystem] package as seen from the controller

    The package performs the real I/O and is not part of the controller.
    [Update] calls it synchronously; the embedding records every call in a
    trace and takes the answer of a directory listing from an environment.
    A run-time panic (an index out of range) ends the computation and
    keeps the calls made so far. *)

(** [fs.FileInfo]: the entries of a listing, with the two methods the
    controller calls ([Name], [IsDir]) and the size shown next to them. *)
Record FileInfo : Type := mkFileInfo { Name : string; Size : Z; IsDir : bool }.

Inductive FsCall : Type :=
| CallGetDirectoryListing (dir : string)
| CallRenameDirOrFile (src dst : string)
| CallMoveDir (src dst : string)
| CallCopyFile (src dst : string) (deleteSrc : bool)
| CallDeleteDirectory (dir : string)
| CallDeleteFile (file : string).

(** What the controller reads from its collaborators during one event:
    the listing the filesystem returns for a directory at the moment it
    is asked, and the text of [components.Help()]. *)
Record Env : Type := mkEnv {
  listing : string -> list FileInfo;
  components_Help : string
}.

(** Computations that may panic and that log their filesystem calls. *)
Definition M (A : Type) : Type := (option A * list FsCall)%type.

Definition ret {A : Type} (a : A) : M A := (Some a, []).
Definition panic {A : Type} : M A := (None, []).
Definition bind {A B : Type} (c : M A) (k : A -> M B) : M B :=
  match c with
  | (Some a, t) => let (r, t') := k a in (r, (t ++ t')%list)
  | (None, t) => (None, t)
  end.

(** A step that may panic and calls nothing. *)
Definition lift {A : Type} (o : option A) : M A := (o, []).

Notation "x <- c ;; k" := (bind c (fun x => k))
  (at level 61, c at next level, right associativity).
Notation "c ;;; k" := (bind c (fun _ => k))
  (at level 61, right associativity).

Module filesystem.

Definition GetDirectoryListing (e : Env) (dir : string) : M (list FileInfo) :=
  (Some (listing e dir), [CallGetDirectoryListing dir]).
Definition RenameDirOrFile (src dst : string) : M unit :=
  (Some tt, [CallRenameDirOrFile src dst]).
Definition MoveDir (src dst : string) : M unit :=
  (Some tt, [CallMoveDir src dst]).
Definition CopyFile (src dst : string) (deleteSrc : bool) : M unit :=
  (Some tt, [CallCopyFile src dst deleteSrc]).
Definition DeleteDirectory (dir : string) : M unit :=
  (Some tt, [CallDeleteDirectory dir]).
Definition DeleteFile (file : string) : M unit :=
  (Some tt, [CallDeleteFile file]).

(** The calls that change the disk. *)
Definition mutates (c : FsCall) : bool :=
  match c with
  | CallGetDirectoryListing _ => false
  | _ => true
  end.

Definition deletes (c : FsCall) : bool :=
  match c with
  | CallDeleteDirectory _ | CallDeleteFile _ => true
  | _ => false
  end.

End filesystem.

(* ================================================================== *)
(** ** The model *)

(** [type fileStatus []fs.FileInfo], the application's own message. *)
Definition fileStatus : Type := list FileInfo.
Definition Msg : Type := tea.Msg fileStatus.

(** [type model struct]: the fields of the declaration under [src/] and
    the three further fields [Update] assigns ([ScreenHeight], [Delete],
    [ShowHelp]). *)
Record model : Type := mkModel {
  Files : list FileInfo;
  Cursor : Z;
  Viewport : viewport.Model;
  TextInput : textinput.Model;
  ViewportReady : bool;
  ScreenWidth : Z;
  ScreenHeight : Z;
  Move : bool;
  Rename : bool;
  Delete : bool;
  ShowHelp : bool
}.

Definition set_Files (v : list FileInfo) (m : model) : model :=
  mkModel v (Cursor m) (Viewport m) (TextInput m) (ViewportReady m)
          (ScreenWidth m) (ScreenHeight m) (Move m) (Rename m) (Delete m)
          (ShowHelp m).
Definition set_Cursor (v : Z) (m : model) : model :=
  mkModel (Files m) v (Viewport m) (TextInput m) (ViewportReady m)
          (ScreenWidth m) (ScreenHeight m) (Move m) (Rename m) (Delete m)
          (ShowHelp m).
Definition set_Viewport (v : viewport.Model) (m : model) : model :=
  mkModel (Files m) (Cursor m) v (TextInput m) (ViewportReady m)
          (ScreenWidth m) (ScreenHeight m) (Move m) (Rename m) (Delete m)
          (ShowHelp m).
Definition set_TextInput (v : textinput.Model) (m : model) : model :=
  mkModel (Files m) (Cursor m) (Viewport m) v (ViewportReady m)
          (ScreenWidth m) (ScreenHeight m) (Move m) (Rename m) (Delete m)
          (ShowHelp m).
Definition set_Screen (w h : Z) (m : model) : model :=
  mkModel (Files m) (Cursor m) (Viewport m) (TextInput m) (ViewportReady m)
          w h (Move m) (Rename m) (Delete m) (ShowHelp m).
Definition set_Move (v : bool) (m : model) : model :=
  mkModel (Files m) (Cursor m) (Viewport m) (TextInput m) (ViewportReady m)
          (ScreenWidth m) (ScreenHeight m) v (Rename m) (Delete m)
          (ShowHelp m).
Definition set_Rename (v : bool) (m : model) : model :=
  mkModel (Files m) (Cursor m) (Viewport m) (TextInput m) (ViewportReady m)
          (ScreenWidth m) (ScreenHeight m) (Move m) v (Delete m)
          (ShowHelp m).
Definition set_Delete (v : bool) (m : model) : model :=
  mkModel (Files m) (Cursor m) (Viewport m) (TextInput m) (ViewportReady m)
          (ScreenWidth m) (ScreenHeight m) (Move m) (Rename m) v
          (ShowHelp m).
Definition set_ShowHelp (v : bool) (m : model) : model :=
  mkModel (Files m) (Cursor m) (Viewport m) (TextInput m) (ViewportReady m)
          (ScreenWidth m) (ScreenHeight m) (Move m) (Rename m) (Delete m)
          v.

(** [createInitialModel]: an empty listing, the zero viewport, a text
    input with the prompt, limit and width of the source, every flag
    false. *)
Definition createInitialModel : model :=
  let input := textinput.NewModel in
  let input := textinput.set_Prompt "❯ " input in
  let input := textinput.set_CharLimit 250 input in
  let input := textinput.set_Width 50 input in
  mkModel [] 0 (viewport.literal 0 0) input false 0 0 false false false false.

(* ================================================================== *)
(** ** [fixViewport] and [fixCursor] *)

Definition fixViewport (moveCursor : bool) (m : model) : option model :=
  let top := viewport.YOffset (Viewport m) in
  let bottom :=
    GoInt.sub (GoInt.add (viewport.Height (Viewport m))
                         (viewport.YOffset (Viewport m))) 1 in
  if moveCursor then
    if Cursor m <? top then Some (set_Cursor top m)
    else if Cursor m >? bottom then Some (set_Cursor bottom m)
    else Some m
  else
    if Cursor m <? top then
      match viewport.LineUp 1 (Viewport m) with
      | Some (v, _) => Some (set_Viewport v m)
      | None => None
      end
    else if Cursor m >? bottom then
      match viewport.LineDown 1 (Viewport m) with
      | Some (v, _) => Some (set_Viewport v m)
      | None => None
      end
    else Some m.

Definition fixCursor (m : model) : model :=
  if Cursor m >? GoInt.sub (GoInt.len (Files m)) 1 then set_Cursor 0 m
  else if Cursor m <? 0
       then set_Cursor (GoInt.sub (GoInt.len (Files m)) 1) m
  else m.

(* ================================================================== *)
(** ** [Update] *)

(** The [case] lists of [switch msg.String()], in source order. *)
Inductive KeyCase : Type :=
| CaseQuit | CaseUp | CaseDown | CaseEnter | CaseBack
| CaseMove | CaseRename | CaseDelete | CaseHelp | CaseEsc | CaseNone.

Definition keyCase (k : string) : KeyCase :=
  if ((k =? "ctrl+c") || (k =? "q"))%string then CaseQuit
  else if ((k =? "up") || (k =? "k"))%string then CaseUp
  else if ((k =? "down") || (k =? "j"))%string then CaseDown
  else if ((k =? "enter") || (k =? " "))%string then CaseEnter
  else if ((k =? "h") || (k =? "backspace"))%string then CaseBack
  else if (k =? "m")%string then CaseMove
  else if (k =? "r")%string then CaseRename
  else if (k =? "d")%string then CaseDelete
  else if (k =? "i")%string then CaseHelp
  else if (k =? "esc")%string then CaseEsc
  else CaseNone.

(** How the type switch is left: by a [return] inside it, or by falling
    out of it to the statements that follow. *)
Inductive Flow : Type :=
| Return (m : model) (cmd : tea.Cmd)
| Next (m : model).

Definition focused (m : model) : bool := textinput.Focused (TextInput m).
Definition blur (m : model) : model :=
  set_TextInput (textinput.Blur (TextInput m)) m.
Definition focus_with (placeholder : string) (m : model) : model :=
  set_TextInput
    (textinput.Focus (textinput.set_Placeholder placeholder (TextInput m))) m.

(** [m.Files[m.Cursor]] *)
Definition selected (m : model) : M FileInfo :=
  match GoInt.index (Files m) (Cursor m) with
  | Some f => ret f
  | None => panic
  end.

(** [m.Files = filesystem.GetDirectoryListing("./"); m.TextInput.Blur()],
    the tail shared by the branches of a committed prompt. *)
Definition relist (e : Env) (m : model) : M model :=
  files <- filesystem.GetDirectoryListing e "./" ;;
  ret (blur (set_Files files m)).

(** [case "enter", " ":] *)
Definition onEnter (e : Env) (m : model) : M Flow :=
  f <- selected m ;;
  if IsDir f && negb (focused m) then
    files <- filesystem.GetDirectoryListing e (Name f) ;;
    ret (Next (set_Cursor 0 (set_Files files m)))
  else if Rename m then
    filesystem.RenameDirOrFile (Name f) (textinput.Value (TextInput m)) ;;;
    m' <- relist e m ;;
    ret (Next (set_Rename false m'))
  else if Move m then
    if IsDir f then
      filesystem.MoveDir (Name f) (textinput.Value (TextInput m)) ;;;
      m' <- relist e m ;;
      ret (Next (set_Move false m'))
    else
      filesystem.CopyFile (Name f) (textinput.Value (TextInput m)) true ;;;
      m' <- relist e m ;;
      ret (Next (set_Move false m'))
  else if Delete m then
    if IsDir f then
      if (textinput.Value (TextInput m) =? "y")%string then
        filesystem.DeleteDirectory (Name f) ;;;
        m' <- relist e m ;;
        ret (Next (set_Delete false m'))
      else
        m' <- relist e m ;;
        ret (Next (set_Delete false m'))
    else
      if (textinput.Value (TextInput m) =? "y")%string then
        filesystem.DeleteFile (Name f) ;;;
        m' <- relist e m ;;
        ret (Next (set_Delete false m'))
      else
        m' <- relist e m ;;
        ret (Next (set_Delete false m'))
  else ret (Return m tea.Nil).

(** [case tea.KeyMsg: switch msg.String()] *)
Definition onKey (e : Env) (m : model) (c : KeyCase) : M Flow :=
  match c with
  | CaseQuit => ret (Return m tea.Quit)
  | CaseUp =>
      if negb (focused m) then
        m' <- lift (fixViewport false
                      (fixCursor (set_Cursor (GoInt.sub (Cursor m) 1) m))) ;;
        ret (Next m')
      else ret (Next m)
  | CaseDown =>
      if negb (focused m) then
        m' <- lift (fixViewport false
                      (fixCursor (set_Cursor (GoInt.add (Cursor m) 1) m))) ;;
        ret (Next m')
      else ret (Next m)
  | CaseEnter => onEnter e m
  | CaseBack =>
      if negb (focused m) then
        files <- filesystem.GetDirectoryListing e ".." ;;
        ret (Next (set_Files files (set_Cursor 0 m)))
      else ret (Next m)
  | CaseMove =>
      if negb (focused m)
      then ret (Next (focus_with "/usr/share/" (set_Move true m)))
      else ret (Next m)
  | CaseRename =>
      if negb (focused m)
      then ret (Next (focus_with "newfilename.ex" (set_Rename true m)))
      else ret (Next m)
  | CaseDelete =>
      if negb (focused m)
      then ret (Next (focus_with "[y/n]" (set_Delete true m)))
      else ret (Next m)
  | CaseHelp =>
      ret (Next (set_ShowHelp true
                   (set_Viewport
                      (viewport.SetContent (components_Help e) (Viewport m))
                      m)))
  | CaseEsc =>
      ret (Next (blur (set_ShowHelp false
                         (set_Delete false
                            (set_Rename false (set_Move false m))))))
  | CaseNone => ret (Next m)
  end.

(** [switch msg := msg.(type)] *)
Definition dispatch (e : Env) (m : model) (msg : Msg) : M Flow :=
  match msg with
  | tea.AppMsg files => ret (Return (set_Files files m) tea.Nil)
  | tea.WindowSizeMsg w h =>
      ret (Next (set_Viewport
                   (viewport.set_YPosition 0
                      (viewport.literal w (GoInt.sub h 1)))
                   (set_Screen w h m)))
  | tea.KeyMsg k => onKey e m (keyCase (tea.String k))
  | tea.MouseMsg _ => ret (Next m)
  end.

(** The first statement of [Update]: a key message whose string is ["q"]
    or ["ctrl+c"]. *)
Definition isQuit (msg : Msg) : bool :=
  match msg with
  | tea.KeyMsg k =>
      ((tea.String k =? "q") || (tea.String k =? "ctrl+c"))%string
  | _ => false
  end.

(** [func (m model) Update(msg tea.Msg) (tea.Model, tea.Cmd)] *)
Definition Update (e : Env) (m : model) (msg : Msg) : M (model * tea.Cmd) :=
  if isQuit msg then ret (m, tea.Quit)
  else
    r <- dispatch e m msg ;;
    match r with
    | Return m' cmd => ret (m', cmd)
    | Next m' =>
        ret (set_TextInput (textinput.Update (TextInput m') msg) m',
             tea.Batch)
    end.

(** Keys and messages used in examples. *)
Definition key (s : string) : Msg := tea.KeyMsg (tea.rune s).
Definition keyUp : Msg := tea.KeyMsg (tea.special tea.KeyUp).
Definition keyDown : Msg := tea.KeyMsg (tea.special tea.KeyDown).
Definition keyEnter : Msg := tea.KeyMsg (tea.special tea.KeyEnter).
Definition keyEsc : Msg := tea.KeyMsg (tea.special tea.KeyEsc).

(* ================================================================== *)
(** ** The spec's vocabulary over the model *)

(** The interaction mode the flags stand for.  The order is the order in
    which the commit branch of [Update] tests them. *)
Inductive Mode : Type :=
| Browse | RenamePrompt | MovePrompt | DeleteConfirm | HelpScreen.

Definition mode (m : model) : Mode :=
  if Rename m then RenamePrompt
  else if Move m then MovePrompt
  else if Delete m then DeleteConfirm
  else if ShowHelp m then HelpScreen
  else Browse.

(** How many of the three prompt flags are set. *)
Definition flags_set (m : model) : nat :=
  (Nat.b2n (Move m) + Nat.b2n (Rename m) + Nat.b2n (Delete m))%nat.

(** [0 <= cursor < len(listing)] *)
Definition cursor_in_range (m : model) : Prop :=
  0 <= Cursor m < GoInt.len (Files m).

(** [offset <= cursor <= offset+height-1] *)
Definition cursor_in_band (m : model) : Prop :=
  viewport.YOffset (Viewport m) <= Cursor m
  <= viewport.YOffset (Viewport m) + viewport.Height (Viewport m) - 1.

(** The text buffer of the prompt. *)
Definition buffer (m : model) : string := textinput.Value (TextInput m).

(** Up and down key events: the keys of the two navigation cases. *)
Definition isNav (msg : Msg) : bool :=
  match msg with
  | tea.KeyMsg k =>
      match keyCase (tea.String k) with
      | CaseUp | CaseDown => true
      | _ => false
      end
  | _ => false
  end.

(** Processing a sequence of events, each against the environment of its
    moment; a panic ends the program. *)
Fixpoint run (m : model) (events : list (Env * Msg)) : option model :=
  match events with
  | [] => Some m
  | (e, msg) :: rest =>
      match Update e m msg with
      | (Some (m', _), _) => run m' rest
      | (None, _) => None
      end
  end.

(** The states of a running program. *)
Inductive reachable : model -> Prop :=
| reach_init : reachable createInitialModel
| reach_step (e : Env) (m : model) (msg : Msg) (m' : model) (cmd : tea.Cmd)
    (calls : list FsCall) :
    reachable m ->
    Update e m msg = (Some (m', cmd), calls) ->
    reachable m'.

(** Sample data. *)
Definition nl : string := String "010" EmptyString.
Definition entry (name : string) (dir : bool) : FileInfo :=
  mkFileInfo name 0 dir.
Definition files5 : list FileInfo :=
  [entry "a.txt" false; entry "b" true; entry "c.txt" false;
   entry "d.txt" false; entry "e.txt" false].
Definition rows5 : string :=
  "a.txt" ++ nl ++ "b" ++ nl ++ "c.txt" ++ nl ++ "d.txt" ++ nl ++ "e.txt" ++ nl.
Definition env5 : Env := mkEnv (fun _ => files5) ("help" ++ nl).

(** Five entries in a window of two rows, the first one selected. *)
Definition browse5 : model :=
  set_Viewport (viewport.SetContent rows5 (viewport.literal 80 2))
    (set_Files files5 createInitialModel).

(** The last entry selected and the window scrolled down to it. *)
Definition scrolled5 : model :=
  set_Cursor 4
    (set_Viewport (viewport.set_YOffset 3 (Viewport browse5)) browse5).

(** A prompt that is open on [browse5] with [text] typed into it. *)
Definition prompt5 (flag : bool -> model -> model) (text : string) : model :=
  set_TextInput
    (textinput.set_buffer text (String.length text)
       (textinput.Focus (TextInput browse5)))
    (flag true browse5).

(** The help screen shown over [browse5]. *)
Definition help5 : model := set_ShowHelp true browse5.

(** [browse5] with a text left in the buffer by an earlier prompt. *)
Definition stale5 : model :=
  set_TextInput (textinput.set_buffer "old" 3 (TextInput browse5)) browse5.

(** The model a [Flow] carries. *)
Definition flow_model (r : Flow) : model :=
  match r with
  | Return m _ => m
  | Next m => m
  end.

(** The keys that reach the text input of an open prompt as plain input:
    every case of the switch whose body is guarded by the focus test, and
    the keys without a case. *)
Definition guarded_case (c : KeyCase) : bool :=
  match c with
  | CaseUp | CaseDown | CaseBack | CaseMove | CaseRename | CaseDelete
  | CaseNone => true
  | CaseQuit | CaseEnter | CaseHelp | CaseEsc => false
  end.

(** At most one prompt flag is set, and a set flag means that the text
    input has the focus. *)
Definition prompt_inv (m : model) : Prop :=
  (flags_set m <= 1)%nat /\ (flags_set m <> 0%nat -> focused m = true).

(** The scroll position of a viewport lies within its content: a window
    of no negative height whose offset is a line of the content or the
    position right behind it, all within Go's [int]. *)
Definition viewport_in_content (v : viewport.Model) : Prop :=
  0 <= viewport.Height v /\
  0 <= viewport.YOffset v <= GoInt.len (viewport.lines v) /\
  viewport.YOffset v + viewport.Height v <= GoInt.max_int /\
  GoInt.len (viewport.lines v) <= GoInt.max_int.


(** The initial model after the delete key. *)
Definition deleting0 : model :=
  match Update env5 createInitialModel (key "d") with
  | (Some (m', _), _) => m'
  | (None, _) => createInitialModel
  end.

(** Equality of key cases is decidable. *)
Definition KeyCase_eq_dec (a b : KeyCase) : {a = b} + {a <> b}.
Proof. decide equality. Defined.

(* ================================================================== *)
(** ** Package [ascii_image]

    The picture preview.  [image.Image] is an interface of the standard
    library and the scaling is done by a third-party package; both are
    parameters: the type of images, the gray level of a pixel
    ([color.GrayModel.Convert(img.At(x, y))], whose field [Y] is a
    [uint8]), and [resize.Resize] with the Lanczos filter, which may
    fail: [None] stands for a call that does not return an image (the
    package panics or exhausts the memory on sizes it cannot serve). *)

Module ascii_image.
Section Images.

Variable Image : Type.
Variable gray : Image -> Z -> Z -> Byte.byte.
Variable Resize : Z -> Z -> Image -> option Image.

(** [type Model struct]; a [nil] image is [None]. *)
Record Model : Type := mkModel {
  Image_ : option Image;
  Content : string;
  Height : Z;
  Width : Z
}.

Definition ASCIISTR : string := "IMND8OZ$7I?+=~:,..".

(** [table := []byte(ASCIISTR)] *)
Definition table : list ascii := list_ascii_of_string ASCIISTR.

(** [uint(n)] for an [int]: the same 64 bits read as unsigned. *)
Definition uint (n : Z) : Z := n mod 2 ^ 64.

(** [pos := int(y * 16 / 255)] for the [uint8] gray level [y], computed
    in [uint64]. *)
Definition pos (y : Byte.byte) : Z :=
  ((Z.of_N (Byte.to_N y) * 16) mod 2 ^ 64) / 255.

(** The body of the inner loop: the table entry for the pixel [(j, i)].
    [None] is a panic: the call of [At] on a [nil] image or an index
    outside of the table. *)
Definition cell (img : option Image) (j i : Z) : option ascii :=
  match img with
  | None => None
  | Some im => GoInt.index table (pos (gray im j i))
  end.

(** [for j := 0; j < m.Width; j++], over the columns still to come,
    followed by the newline of the row. *)
Fixpoint writeRow (img : option Image) (i : Z) (js : list Z)
  : option string :=
  match js with
  | [] => Some (String "010" EmptyString)
  | j :: rest =>
      match cell img j i with
      | None => None
      | Some c =>
          match writeRow img i rest with
          | None => None
          | Some s => Some (String c s)
          end
      end
  end.

(** [for i := 0; i < m.Height; i++] *)
Fixpoint writeRows (img : option Image) (rows js : list Z)
  : option string :=
  match rows with
  | [] => Some EmptyString
  | i :: rest =>
      match writeRow img i js with
      | None => None
      | Some r =>
          match writeRows img rest js with
          | None => None
          | Some s => Some (r ++ s)
          end
      end
  end.

(** The values [0, 1, ..., n-1] of a counting loop. *)
Definition upto (n : Z) : list Z := map Z.of_nat (seq 0 (Z.to_nat n)).

Definition set_Content (s : string) (m : Model) : Model :=
  mkModel (Image_ m) s (Height m) (Width m).
Definition set_Image (img : option Image) (m : Model) : Model :=
  mkModel img (Content m) (Height m) (Width m).

(** [scaleImage]: the image is replaced by its scaled copy.  The
    method is only reached with an image. *)
Definition scaleImage (m : Model) : option Model :=
  match Image_ m with
  | None => None
  | Some im =>
      match Resize (uint (Width m)) (uint (Height m)) im with
      | Some scaled => Some (set_Image (Some scaled) m)
      | None => None
      end
  end.

(** [convertToAscii]; the line written to the log is not modelled. *)
Definition convertToAscii (m : Model) : option Model :=
  match writeRows (Image_ m) (upto (Height m)) (upto (Width m)) with
  | None => None
  | Some s => Some (set_Content s m)
  end.

(** [SetContent(img)] for an image [img] that is not [nil]. *)
Definition SetContent (img : Image) (m : Model) : option Model :=
  match scaleImage (set_Image (Some img) m) with
  | None => None
  | Some m1 => convertToAscii m1
  end.

(** [SetSize(width, height)] *)
Definition SetSize (width height : Z) (m : Model) : option Model :=
  let m := mkModel (Image_ m) (Content m) height width in
  match Image_ m with
  | Some _ =>
      match scaleImage m with
      | None => None
      | Some m1 => convertToAscii m1
      end
  | None => Some m
  end.

Definition View (m : Model) : string := Content m.

End Images.

Arguments mkModel {Image} _ _ _ _.
Arguments Image_ {Image} _.
Arguments Content {Image} _.
Arguments Height {Image} _.
Arguments Width {Image} _.
Arguments View {Image} _.

(** A sample picture: a horizontal ramp from black to white, as a
    function of its column. *)
Definition ramp : Type := unit.
Definition ramp_gray (_ : ramp) (x _ : Z) : Byte.byte :=
  match Byte.of_N (Z.to_N (x * 51)) with
  | Some b => b
  | None => Byte.xff
  end.
Definition ramp_resize (_ _ : Z) (im : ramp) : option ramp := Some im.

End ascii_image.

(** Rows written one after the other, each closed by a newline. *)
Definition unlines (rows : list string) : string :=
  fold_right (fun r acc => r ++ nl ++ acc) EmptyString rows.

(** A character picture of [h] rows and [w] columns drawn with the
    first 17 characters of the table. *)
Definition is_picture (h w : Z) (s : string) : Prop :=
  exists rows,
    s = unlines rows /\
    Z.of_nat (List.length rows) = Z.max 0 h /\
    Forall (fun r =>
              Z.of_nat (String.length r) = Z.max 0 w /\
              Forall (fun c => In c (firstn 17 ascii_image.table))
                     (list_ascii_of_string r)) rows.

(* ================================================================== *)
(** ** Package [statusbar] (the version with the command bar)

    [View] first decides which texts go into the four columns and then
    styles, truncates and joins them with lipgloss.  The embedding covers
    the first part, up to the texts.  What [View] reads from other
    packages is an environment: the frame of the spinner, the working
    directory ([None] when [dirfs.GetWorkingDirectory] fails), the
    constant [dirfs.CurrentDirectory], the mode string of a file, the
    rendering of the text input and the glyph of the directory icon. *)

Module statusbar.

Record Env : Type := mkEnv {
  spinnerView : string;
  workingDirectory : option string;
  CurrentDirectory : string;
  modeString : FileInfo -> string;
  textinputView : textinput.Model -> string;
  dirGlyph : string
}.

(** [type Model struct] without the four colour pairs and the spinner;
    a [nil] file is [None]. *)
Record Model : Type := mkModel {
  Width : Z;
  Height : Z;
  TotalFiles : Z;
  Cursor : Z;
  ShowIcons : bool;
  ShowCommandBar : bool;
  InMoveMode : bool;
  ItemSize : string;
  FilePaths : list string;
  SelectedFile : option FileInfo;
  ItemToMove : option FileInfo;
  Textinput : textinput.Model
}.

(** [SetContent] *)
Definition SetContent (totalFiles cursor : Z) (showCommandBar inMoveMode : bool)
  (selectedFile itemToMove : option FileInfo) (filePaths : list string)
  (m : Model) : Model :=
  mkModel (Width m) (Height m) totalFiles cursor (ShowIcons m)
          showCommandBar inMoveMode (ItemSize m) filePaths selectedFile
          itemToMove (Textinput m).

(** The texts of the four columns. *)
Record Texts : Type := mkTexts {
  selectedFile : string;
  status : string;
  fileCount : string;
  logo : string
}.

(** [%d] *)
Definition decimal (z : Z) : string := NilZero.string_of_int (Z.to_int z).

(** The statements of [View] in front of the styling.  [None] is a
    panic: an index outside of [m.FilePaths], or the call of [Name] on a
    [nil] item. *)
Definition texts (e : Env) (m : Model) : option Texts :=
  let fileSize := spinnerView e in
  match
    (if TotalFiles m >? 0 then
       match SelectedFile m with
       | Some f =>
           let currentPath :=
             match workingDirectory e with
             | Some p => p
             | None => CurrentDirectory e
             end in
           let fileSize :=
             if (ItemSize m =? EmptyString)%string then fileSize
             else ItemSize m in
           match
             (if GoInt.len (FilePaths m) >? 0
              then GoInt.index (FilePaths m) (Cursor m)
              else Some currentPath)
           with
           | None => None
           | Some currentPath =>
               Some (Name f,
                     decimal (GoInt.add (Cursor m) 1) ++ "/"
                     ++ decimal (TotalFiles m),
                     fileSize ++ " " ++ modeString e f ++ " " ++ currentPath)
           end
       | None => Some ("N/A", "0/0", EmptyString)
       end
     else Some ("N/A", "0/0", EmptyString))
  with
  | None => None
  | Some (selected, count, status) =>
      let status :=
        if ShowCommandBar m then textinputView e (Textinput m) else status in
      match
        (if InMoveMode m then
           match ItemToMove m with
           | Some g => Some ("Currently moving:" ++ " " ++ Name g)
           | None => None
           end
         else Some status)
      with
      | None => None
      | Some status =>
          let logo :=
            if ShowIcons m then dirGlyph e ++ " " ++ "FM" else "FM" in
          Some (mkTexts selected status count logo)
      end
  end.

(** A sample environment and a bar over the five sample entries. *)
Definition env0 : Env :=
  mkEnv "*" (Some "/home") "." (fun _ => "-rw-r--r--") textinput.Value "D".
Definition bar5 : Model :=
  mkModel 80 1 5 1 false false false "4K" [] (Some (entry "b" true)) None
          textinput.NewModel.

End statusbar.

(* ================================================================== *)
(** ** Package [treepreview]

    The pane that previews a directory.  Rendering is lipgloss and the
    icon tables; it enters as parameters: the type of directory entries,
    the look of the pane (style, colours and configuration, which only
    the rendering reads), the border sizes of the style, the height of
    the status bar, and the text that the loop of [SetContent] builds
    for a model and its files.  That loop calls [Size] on the result of
    [file.Info()] without looking at the error, so it may panic; [None]
    is that panic. *)

Module treepreview.
Section Pane.

Variable DirEntry : Type.
Variable Look : Type.
Variable GetHorizontalBorderSize : Look -> Z.
Variable GetVerticalBorderSize : Look -> Z.
Variable StatusbarHeight : Z.

Record Model : Type := mkModel {
  Viewport : viewport.Model;
  look : Look;
  Files : list DirEntry;
  Cursor : Z;
  ShowIcons : bool;
  ShowHidden : bool;
  Borderless : bool;
  IsActive : bool
}.

Variable curFiles : Model -> list DirEntry -> option string.

Definition set_Viewport (v : viewport.Model) (m : Model) : Model :=
  mkModel v (look m) (Files m) (Cursor m) (ShowIcons m) (ShowHidden m)
          (Borderless m) (IsActive m).
Definition set_Files (fs : list DirEntry) (m : Model) : Model :=
  mkModel (Viewport m) (look m) fs (Cursor m) (ShowIcons m) (ShowHidden m)
          (Borderless m) (IsActive m).

(** [SetContent(files)] *)
Definition SetContent (files : list DirEntry) (m : Model) : option Model :=
  let m := set_Files files m in
  match curFiles m files with
  | None => None
  | Some s => Some (set_Viewport (viewport.SetContent s (Viewport m)) m)
  end.

(** [SetSize(width, height)]; the division of Go truncates. *)
Definition SetSize (width height : Z) (m : Model) : Model :=
  let v := Viewport m in
  let v := viewport.mkModel
             (GoInt.sub (Z.quot width 2) (GetHorizontalBorderSize (look m)))
             (viewport.Height v) (viewport.YOffset v) (viewport.YPosition v)
             (viewport.lines v) in
  let v := viewport.mkModel
             (viewport.Width v)
             (GoInt.sub (GoInt.sub height (GetVerticalBorderSize (look m)))
                        StatusbarHeight)
             (viewport.YOffset v) (viewport.YPosition v)
             (viewport.lines v) in
  set_Viewport v m.

Definition GetTotalFiles (m : Model) : Z := GoInt.len (Files m).

(** The scroll steps shared by the wheel and the keys:
    [if m.IsActive { m.Viewport.LineUp(1); m.SetContent(m.Files) }]. *)
Definition scroll
  (line : Z -> viewport.Model -> option (viewport.Model * list string))
  (m : Model) : option Model :=
  if IsActive m
  then match line 1 (Viewport m) with
       | Some (v, _) => SetContent (Files m) (set_Viewport v m)
       | None => None
       end
  else Some m.

(** [Update]; [commands.PreviewDirectoryListingMsg] is the application
    message. *)
Definition Update (m : Model) (msg : tea.Msg (list DirEntry))
  : option Model :=
  match msg with
  | tea.AppMsg files => SetContent files m
  | tea.WindowSizeMsg width height =>
      let m := SetSize width height m in SetContent (Files m) m
  | tea.MouseMsg t =>
      match t with
      | tea.MouseWheelUp => scroll viewport.LineUp m
      | tea.MouseWheelDown => scroll viewport.LineDown m
      | _ => Some m
      end
  | tea.KeyMsg k =>
      if ((tea.String k =? "up") || (tea.String k =? "k"))%string
      then scroll viewport.LineUp m
      else if ((tea.String k =? "down") || (tea.String k =? "j"))%string
      then scroll viewport.LineDown m
      else Some m
  end.

End Pane.

Arguments Viewport {DirEntry Look} _.
Arguments look {DirEntry Look} _.
Arguments Files {DirEntry Look} _.
Arguments Cursor {DirEntry Look} _.
Arguments IsActive {DirEntry Look} _.

(** A sample pane: entries are names, one row per name. *)
Definition namesRows (names : list string) : string :=
  fold_right (fun r acc => r ++ nl ++ acc) EmptyString names.
Definition pane3 (active : bool) : Model string unit :=
  mkModel string unit
    (viewport.SetContent (namesRows ["a"; "b"; "c"; "d"])
       (viewport.literal 40 2))
    tt ["a"; "b"; "c"; "d"] 0 false true false active.

End treepreview.

(* ================================================================== *)
(** ** Facts about Go integers and keys *)

Lemma wrap_in_range (z : Z) : GoInt.in_range z -> GoInt.wrap z = z.
Proof.
  unfold GoInt.in_range, GoInt.wrap, GoInt.min_int, GoInt.max_int.
  intros H. rewrite Z.mod_small; lia.
Qed.

Lemma len_nonneg {A : Type} (l : list A) : 0 <= GoInt.len l.
Proof. unfold GoInt.len. lia. Qed.

Lemma len_pos {A : Type} (l : list A) : l <> [] -> 1 <= GoInt.len l.
Proof. destruct l; [congruence|]. unfold GoInt.len. simpl. lia. Qed.

Lemma len_pred {A : Type} (l : list A) :
  GoInt.len l <= GoInt.max_int ->
  GoInt.sub (GoInt.len l) 1 = GoInt.len l - 1.
Proof.
  intros H. unfold GoInt.sub. apply wrap_in_range.
  pose proof (len_nonneg l).
  unfold GoInt.in_range, GoInt.min_int, GoInt.max_int in *. lia.
Qed.

Lemma index_in_range {A : Type} (l : list A) (i : Z) :
  0 <= i < GoInt.len l -> exists a, GoInt.index l i = Some a.
Proof.
  intros H. unfold GoInt.index, GoInt.len in *.
  destruct (Z.ltb_spec i 0); [lia|].
  destruct (nth_error l (Z.to_nat i)) eqn:E; [eauto|].
  apply nth_error_None in E. lia.
Qed.

(** Case analysis on the strings [keyCase] compares with. *)
Ltac key_cases :=
  repeat match goal with
         | |- context [String.eqb ?a ?b] =>
             destruct (String.eqb_spec a b); simpl
         | H : context [String.eqb ?a ?b] |- _ =>
             destruct (String.eqb_spec a b); simpl in H
         end.

(** The guard in front of the type switch fires exactly on the keys of the
    switch's own quit case. *)
Lemma isQuit_keyCase (k : tea.Key) :
  isQuit (tea.KeyMsg k) = true <-> keyCase (tea.String k) = CaseQuit.
Proof.
  unfold isQuit, keyCase. generalize (tea.String k). intros s.
  split; intros H; key_cases; subst; try congruence; try discriminate.
Qed.

Lemma isQuit_false (k : tea.Key) :
  keyCase (tea.String k) <> CaseQuit -> isQuit (tea.KeyMsg k) = false.
Proof.
  intros H. destruct (isQuit (tea.KeyMsg k)) eqn:E; [|reflexivity].
  apply isQuit_keyCase in E. contradiction.
Qed.

(** [Update] on a key that is not a quit key. *)
Lemma Update_key (e : Env) (m : model) (k : tea.Key) :
  keyCase (tea.String k) <> CaseQuit ->
  Update e m (tea.KeyMsg k) =
  (r <- onKey e m (keyCase (tea.String k)) ;;
   match r with
   | Return m' cmd => ret (m', cmd)
   | Next m' =>
       ret (set_TextInput
              (textinput.Update (TextInput m') (tea.KeyMsg k : Msg)) m',
            tea.Batch)
   end).
Proof.
  intros H. unfold Update. rewrite (isQuit_false k H). reflexivity.
Qed.

(** The text input never changes its own focus, and ignores everything
    while it has none. *)
Lemma textinput_edit_focus (k : tea.Key) (t : textinput.Model) :
  textinput.focus (textinput.edit k t) = textinput.focus t.
Proof.
  unfold textinput.edit.
  destruct (tea.Alt k); [reflexivity|].
  destruct (tea.Type_ k); simpl; try reflexivity;
    repeat match goal with
           | |- context [if ?b then _ else _] => destruct b
           end; reflexivity.
Qed.

Lemma textinput_Update_focus (t : textinput.Model) (msg : Msg) :
  textinput.Focused (textinput.Update t msg) = textinput.Focused t.
Proof.
  unfold textinput.Update, textinput.Focused.
  destruct (textinput.focus t) eqn:E; simpl; [|assumption].
  destruct msg; try assumption.
  rewrite textinput_edit_focus. assumption.
Qed.

Lemma textinput_Update_blurred (t : textinput.Model) (msg : Msg) :
  textinput.Focused t = false -> textinput.Update t msg = t.
Proof.
  unfold textinput.Update, textinput.Focused. intros ->. reflexivity.
Qed.

(* ================================================================== *)
(** ** Scrolling the viewport *)

Lemma add_exact (a b : Z) :
  GoInt.in_range (a + b) -> GoInt.add a b = a + b.
Proof. apply wrap_in_range. Qed.

Lemma sub_exact (a b : Z) :
  GoInt.in_range (a - b) -> GoInt.sub a b = a - b.
Proof. apply wrap_in_range. Qed.

Ltac int_range :=
  unfold GoInt.in_range, GoInt.min_int, GoInt.max_int in *; lia.

Lemma slice_some {A : Type} (l : list A) (low high : Z) :
  0 <= low <= high -> high <= GoInt.len l ->
  exists shown, GoInt.slice l low high = Some shown.
Proof.
  intros [H0 H1] H2. unfold GoInt.slice.
  destruct (Z.leb_spec 0 low); [|lia].
  destruct (Z.leb_spec low high); [|lia].
  destruct (Z.leb_spec high (GoInt.len l)); [|lia].
  cbn. eauto.
Qed.

Lemma slice_none {A : Type} (l : list A) (low high : Z) :
  high < low -> GoInt.slice l low high = None.
Proof.
  intros H. unfold GoInt.slice.
  destruct (Z.leb_spec low high); [lia|].
  rewrite Bool.andb_false_r. reflexivity.
Qed.

(** The scrolling methods change the offset and nothing else. *)
Lemma LineUp_frame (n : Z) (v v' : viewport.Model) (shown : list string) :
  viewport.LineUp n v = Some (v', shown) ->
  viewport.Width v' = viewport.Width v /\
  viewport.Height v' = viewport.Height v /\
  viewport.lines v' = viewport.lines v.
Proof.
  unfold viewport.LineUp.
  repeat match goal with
         | |- context [if ?b then _ else _] => destruct b
         | |- context [match ?o with Some _ => _ | None => _ end] =>
             destruct o
         end; intros H; inversion H; subst; cbn; auto.
Qed.

Lemma LineDown_frame (n : Z) (v v' : viewport.Model) (shown : list string) :
  viewport.LineDown n v = Some (v', shown) ->
  viewport.Width v' = viewport.Width v /\
  viewport.Height v' = viewport.Height v /\
  viewport.lines v' = viewport.lines v.
Proof.
  unfold viewport.LineDown.
  repeat match goal with
         | |- context [if ?b then _ else _] => destruct b
         | |- context [match ?o with Some _ => _ | None => _ end] =>
             destruct o
         end; intros H; inversion H; subst; cbn; auto.
Qed.

(** One row up, away from the top, with the offset inside the content. *)
Lemma LineUp_one (v : viewport.Model) :
  0 < viewport.YOffset v ->
  viewport.YOffset v <= GoInt.len (viewport.lines v) ->
  GoInt.len (viewport.lines v) <= GoInt.max_int ->
  exists shown,
    viewport.LineUp 1 v
    = Some (viewport.set_YOffset (viewport.YOffset v - 1) v, shown).
Proof.
  intros H0 H1 H2. unfold viewport.LineUp, viewport.AtTop.
  destruct (Z.leb_spec (viewport.YOffset v) 0); [lia|].
  cbn [orb Z.eqb]. rewrite Z.min_l by lia. rewrite sub_exact by int_range.
  cbn [viewport.lines viewport.set_YOffset viewport.YOffset].
  destruct (Z.gtb_spec (GoInt.len (viewport.lines v)) 0); [|lia].
  rewrite add_exact by int_range. rewrite sub_exact by int_range.
  destruct (slice_some (viewport.lines v)
              (Z.max 0 (viewport.YOffset v - 1))
              (Z.min (viewport.YOffset v - 1 + 1)
                     (GoInt.len (viewport.lines v) - 1)))
    as [shown Hs]; [lia | lia |].
  rewrite Hs. eauto.
Qed.

(** One row down, with content left below the window. *)
Lemma LineDown_one (v : viewport.Model) :
  0 <= viewport.Height v ->
  0 <= viewport.YOffset v ->
  viewport.YOffset v + viewport.Height v + 1
  < GoInt.len (viewport.lines v) ->
  GoInt.len (viewport.lines v) <= GoInt.max_int ->
  exists shown,
    viewport.LineDown 1 v
    = Some (viewport.set_YOffset (viewport.YOffset v + 1) v, shown).
Proof.
  intros Hh Hy Hroom Hmax. unfold viewport.LineDown, viewport.AtBottom.
  rewrite (sub_exact (GoInt.len (viewport.lines v)) 1) by int_range.
  rewrite (sub_exact (GoInt.len (viewport.lines v) - 1)
             (viewport.Height v)) by int_range.
  rewrite (add_exact (viewport.YOffset v) (viewport.Height v))
    by int_range.
  rewrite sub_exact by int_range.
  destruct (Z.geb_spec (viewport.YOffset v)
              (GoInt.len (viewport.lines v) - 1 - viewport.Height v));
    [lia|].
  cbn [orb Z.eqb]. rewrite Z.min_l by lia.
  rewrite (add_exact (viewport.YOffset v) 1) by int_range.
  cbn [viewport.lines viewport.set_YOffset viewport.YOffset
       viewport.Height].
  destruct (Z.gtb_spec (GoInt.len (viewport.lines v)) 0); [|lia].
  rewrite add_exact by int_range. rewrite !sub_exact by int_range.
  destruct (slice_some (viewport.lines v)
              (Z.max (viewport.YOffset v + 1 + viewport.Height v - 1) 0)
              (Z.min (viewport.YOffset v + 1 + viewport.Height v)
                     (GoInt.len (viewport.lines v) - 1)))
    as [shown Hs]; [lia | lia |].
  rewrite Hs. eauto.
Qed.

(** Scrolled beyond a content that is not empty, one row up panics: the
    slice expression has its lower bound above the upper one. *)
Lemma LineUp_beyond_content (v : viewport.Model) :
  0 < GoInt.len (viewport.lines v) ->
  GoInt.len (viewport.lines v) < viewport.YOffset v ->
  viewport.YOffset v <= GoInt.max_int ->
  viewport.LineUp 1 v = None.
Proof.
  intros Hlen Hy Hmax. unfold viewport.LineUp, viewport.AtTop.
  destruct (Z.leb_spec (viewport.YOffset v) 0); [lia|].
  cbn [orb Z.eqb]. rewrite Z.min_l by lia. rewrite sub_exact by int_range.
  cbn [viewport.lines viewport.set_YOffset viewport.YOffset].
  destruct (Z.gtb_spec (GoInt.len (viewport.lines v)) 0); [|lia].
  rewrite add_exact by int_range. rewrite sub_exact by int_range.
  rewrite slice_none by lia. reflexivity.
Qed.

(** At the bottom nothing moves. *)
Lemma LineDown_at_bottom (v : viewport.Model) :
  0 <= viewport.Height v ->
  0 <= viewport.YOffset v ->
  viewport.YOffset v + viewport.Height v <= GoInt.max_int ->
  GoInt.len (viewport.lines v) <= GoInt.max_int ->
  GoInt.len (viewport.lines v)
  <= viewport.YOffset v + viewport.Height v + 1 ->
  viewport.LineDown 1 v = Some (v, []).
Proof.
  intros Hh Hy Hsum Hmax Hbot. pose proof (len_nonneg (viewport.lines v)).
  unfold viewport.LineDown, viewport.AtBottom.
  rewrite (sub_exact (GoInt.len (viewport.lines v)) 1) by int_range.
  rewrite (sub_exact (GoInt.len (viewport.lines v) - 1)
             (viewport.Height v)) by int_range.
  destruct (Z.geb_spec (viewport.YOffset v)
              (GoInt.len (viewport.lines v) - 1 - viewport.Height v));
    [reflexivity | lia].
Qed.

(** With the offset inside the content neither scrolling method panics,
    each moves the offset by at most one row, and the offset stays inside
    the content. *)
Lemma LineUp_in_content (v : viewport.Model) :
  viewport_in_content v ->
  exists v' shown,
    viewport.LineUp 1 v = Some (v', shown) /\
    viewport_in_content v' /\
    viewport.Height v' = viewport.Height v /\
    (viewport.YOffset v' = viewport.YOffset v \/
     (0 < viewport.YOffset v /\
      viewport.YOffset v' = viewport.YOffset v - 1)).
Proof.
  intros (Hh & [Hy0 Hy1] & Hsum & Hmax).
  destruct (Z.lt_ge_cases 0 (viewport.YOffset v)) as [Hpos | Hzero].
  - destruct (LineUp_one v Hpos Hy1 Hmax) as [shown Hs].
    do 2 eexists. split; [exact Hs|].
    unfold viewport_in_content, GoInt.max_int in *. cbn.
    repeat split; lia.
  - exists v, []. split.
    + unfold viewport.LineUp, viewport.AtTop.
      destruct (Z.leb_spec (viewport.YOffset v) 0); [reflexivity | lia].
    + unfold viewport_in_content. repeat split; lia.
Qed.

Lemma LineDown_in_content (v : viewport.Model) :
  viewport_in_content v ->
  exists v' shown,
    viewport.LineDown 1 v = Some (v', shown) /\
    viewport_in_content v' /\
    viewport.Height v' = viewport.Height v /\
    (viewport.YOffset v' = viewport.YOffset v \/
     (viewport.YOffset v + viewport.Height v + 1
      < GoInt.len (viewport.lines v) /\
      viewport.YOffset v' = viewport.YOffset v + 1)).
Proof.
  intros (Hh & [Hy0 Hy1] & Hsum & Hmax).
  destruct (Z.lt_ge_cases
              (viewport.YOffset v + viewport.Height v + 1)
              (GoInt.len (viewport.lines v))) as [Hroom | Hbot].
  - destruct (LineDown_one v Hh Hy0 Hroom Hmax) as [shown Hs].
    do 2 eexists. split; [exact Hs|].
    unfold viewport_in_content, GoInt.max_int in *. cbn.
    repeat split; lia.
  - exists v, []. split; [apply LineDown_at_bottom; assumption|].
    unfold viewport_in_content. repeat split; lia.
Qed.

(* ================================================================== *)
(** ** Navigation *)

Lemma set_TextInput_same (m : model) : set_TextInput (TextInput m) m = m.
Proof. destruct m; reflexivity. Qed.

Lemma fixViewport_scroll_frame (m m' : model) :
  fixViewport false m = Some m' ->
  Cursor m' = Cursor m /\
  Files m' = Files m /\
  TextInput m' = TextInput m /\
  Move m' = Move m /\
  Rename m' = Rename m /\
  Delete m' = Delete m /\
  ShowHelp m' = ShowHelp m.
Proof.
  unfold fixViewport.
  repeat match goal with
         | |- context [if ?b then _ else _] => destruct b
         | |- context [match ?o with Some _ => _ | None => _ end] =>
             destruct o as [[? ?]|]
         end; intros H; inversion H; subst; cbn; repeat split; reflexivity.
Qed.

Lemma fixCursor_frame (m : model) :
  Files (fixCursor m) = Files m /\
  Viewport (fixCursor m) = Viewport m /\
  TextInput (fixCursor m) = TextInput m /\
  Move (fixCursor m) = Move m /\
  Rename (fixCursor m) = Rename m /\
  Delete (fixCursor m) = Delete m /\
  ShowHelp (fixCursor m) = ShowHelp m.
Proof.
  unfold fixCursor.
  repeat match goal with
         | |- context [if ?b then _ else _] => destruct b
         end; simpl; repeat split; reflexivity.
Qed.

(** With the offset inside the content the scroll after a move returns
    and keeps the offset inside the content. *)
Lemma fixViewport_in_content (m : model) :
  viewport_in_content (Viewport m) ->
  exists m', fixViewport false m = Some m' /\
             viewport_in_content (Viewport m').
Proof.
  intros Hv. unfold fixViewport.
  destruct (Cursor m <? viewport.YOffset (Viewport m)).
  - destruct (LineUp_in_content _ Hv) as (v' & shown & -> & Hv' & _).
    eexists. split; [reflexivity | exact Hv'].
  - destruct (Cursor m >? _).
    + destruct (LineDown_in_content _ Hv) as (v' & shown & -> & Hv' & _).
      eexists. split; [reflexivity | exact Hv'].
    + eexists. split; [reflexivity | exact Hv].
Qed.

Lemma bind_lift {A B : Type} (o : option A) (k : A -> M B) :
  bind (lift o) k = match o with Some a => k a | None => (None, []) end.
Proof. destruct o as [a|]; cbn; [destruct (k a)|]; reflexivity. Qed.

(** The two navigation cases of the key switch. *)
Lemma onKey_nav (e : Env) (m : model) (c : KeyCase) (cur : Z) :
  (c = CaseUp /\ cur = GoInt.sub (Cursor m) 1) \/
  (c = CaseDown /\ cur = GoInt.add (Cursor m) 1) ->
  onKey e m c =
  if negb (focused m) then
    match fixViewport false (fixCursor (set_Cursor cur m)) with
    | Some m' => (Some (Next m'), [])
    | None => (None, [])
    end
  else (Some (Next m), []).
Proof.
  intros [[-> ->] | [-> ->]]; unfold onKey; destruct (negb (focused m));
    try reflexivity; rewrite bind_lift;
    destruct (fixViewport false _); reflexivity.
Qed.

Lemma onKey_nav_inv (e : Env) (m : model) (c : KeyCase) (r : Flow)
  (calls : list FsCall) :
  c = CaseUp \/ c = CaseDown ->
  onKey e m c = (Some r, calls) ->
  calls = [] /\
  exists m1, r = Next m1 /\
             ((focused m = true /\ m1 = m) \/
              (focused m = false /\
               exists cur,
                 ((c = CaseUp /\ cur = GoInt.sub (Cursor m) 1) \/
                  (c = CaseDown /\ cur = GoInt.add (Cursor m) 1)) /\
                 fixViewport false (fixCursor (set_Cursor cur m))
                 = Some m1)).
Proof.
  intros Hc H.
  assert (Hcur : exists cur,
             (c = CaseUp /\ cur = GoInt.sub (Cursor m) 1) \/
             (c = CaseDown /\ cur = GoInt.add (Cursor m) 1))
    by (destruct Hc; eauto).
  destruct Hcur as [cur Hcur]. rewrite (onKey_nav e m c cur Hcur) in H.
  destruct (focused m); cbn [negb] in H.
  - injection H as <- <-. split; [reflexivity|]. eauto.
  - destruct (fixViewport false (fixCursor (set_Cursor cur m)))
      as [m1|] eqn:E; [|discriminate].
    injection H as <- <-. split; [reflexivity|].
    exists m1. split; [reflexivity|]. right. split; [reflexivity|].
    exists cur. auto.
Qed.

(** The two navigation cases on a browsing model: the cursor moves by
    one and is repaired, then the viewport scrolls; a panic of the scroll
    is a panic of [Update]. *)
Lemma Update_nav (e : Env) (m : model) (k : tea.Key) (c : Z) :
  focused m = false ->
  (keyCase (tea.String k) = CaseUp /\ c = GoInt.sub (Cursor m) 1) \/
  (keyCase (tea.String k) = CaseDown /\ c = GoInt.add (Cursor m) 1) ->
  Update e m (tea.KeyMsg k) =
  match fixViewport false (fixCursor (set_Cursor c m)) with
  | Some m' => (Some (m', tea.Batch), [])
  | None => (None, [])
  end.
Proof.
  intros Hf Hk.
  assert (Hq : keyCase (tea.String k) <> CaseQuit)
    by (destruct Hk as [[E _] | [E _]]; congruence).
  rewrite Update_key by exact Hq.
  assert (Hon : onKey e m (keyCase (tea.String k))
                = (m' <- lift (fixViewport false
                                 (fixCursor (set_Cursor c m))) ;;
                   ret (Next m'))).
  { destruct Hk as [[-> ->] | [-> ->]]; unfold onKey; rewrite Hf;
      reflexivity. }
  rewrite Hon. unfold lift, bind, ret.
  destruct (fixViewport false (fixCursor (set_Cursor c m))) as [m1|] eqn:E;
    [|reflexivity].
  cbn [app]. rewrite textinput_Update_blurred.
  - rewrite set_TextInput_same. reflexivity.
  - destruct (fixViewport_scroll_frame _ _ E) as (_ & _ & Hti & _).
    destruct (fixCursor_frame (set_Cursor c m)) as (_ & _ & Hti' & _).
    unfold focused in Hf. rewrite Hti, Hti'. exact Hf.
Qed.

Lemma Update_up (e : Env) (m : model) (k : tea.Key) :
  focused m = false ->
  keyCase (tea.String k) = CaseUp ->
  Update e m (tea.KeyMsg k) =
  match fixViewport false
          (fixCursor (set_Cursor (GoInt.sub (Cursor m) 1) m)) with
  | Some m' => (Some (m', tea.Batch), [])
  | None => (None, [])
  end.
Proof. intros Hf Hk. apply Update_nav; auto. Qed.

Lemma Update_down (e : Env) (m : model) (k : tea.Key) :
  focused m = false ->
  keyCase (tea.String k) = CaseDown ->
  Update e m (tea.KeyMsg k) =
  match fixViewport false
          (fixCursor (set_Cursor (GoInt.add (Cursor m) 1) m)) with
  | Some m' => (Some (m', tea.Batch), [])
  | None => (None, [])
  end.
Proof. intros Hf Hk. apply Update_nav; auto. Qed.

(** Whatever the cursor was, [fixCursor] puts it on an entry of a
    non-empty listing. *)
Lemma fixCursor_in_range (m : model) :
  Files m <> [] ->
  GoInt.len (Files m) <= GoInt.max_int ->
  cursor_in_range (fixCursor m).
Proof.
  intros Hne Hlen. pose proof (len_pos _ Hne) as Hpos.
  unfold cursor_in_range, fixCursor. rewrite (len_pred _ Hlen).
  destruct (Z.gtb_spec (Cursor m) (GoInt.len (Files m) - 1)); simpl; [lia|].
  destruct (Z.ltb_spec (Cursor m) 0); simpl; lia.
Qed.

Lemma fixCursor_wraps_up (m : model) :
  Files m <> [] ->
  GoInt.len (Files m) <= GoInt.max_int ->
  Cursor m = -1 ->
  Cursor (fixCursor m) = GoInt.len (Files m) - 1.
Proof.
  intros Hne Hlen Hc. pose proof (len_pos _ Hne) as Hpos.
  unfold fixCursor. rewrite (len_pred _ Hlen), Hc.
  destruct (Z.gtb_spec (-1) (GoInt.len (Files m) - 1)); [lia|].
  reflexivity.
Qed.


(** A navigation step of a browsing model whose viewport offset lies
    inside its content returns; the result is the repaired cursor over an
    unchanged listing and a viewport whose offset is still inside. *)
Lemma nav_step (e : Env) (m : model) (k : tea.Key) (c : Z) :
  focused m = false ->
  viewport_in_content (Viewport m) ->
  (keyCase (tea.String k) = CaseUp /\ c = GoInt.sub (Cursor m) 1) \/
  (keyCase (tea.String k) = CaseDown /\ c = GoInt.add (Cursor m) 1) ->
  exists m', Update e m (tea.KeyMsg k) = (Some (m', tea.Batch), []) /\
             Files m' = Files m /\
             Cursor m' = Cursor (fixCursor (set_Cursor c m)) /\
             focused m' = false /\
             viewport_in_content (Viewport m').
Proof.
  intros Hf Hv Hk. rewrite (Update_nav e m k c Hf Hk).
  destruct (fixCursor_frame (set_Cursor c m)) as (Hfs & Hvp & Hti & _).
  destruct (fixViewport_in_content (fixCursor (set_Cursor c m)))
    as (m' & Hfix & Hv').
  { rewrite Hvp. exact Hv. }
  rewrite Hfix. exists m'. split; [reflexivity|].
  destruct (fixViewport_scroll_frame _ _ Hfix) as (Hc & Hfs' & Hti' & _).
  unfold focused in *. rewrite Hfs', Hfs, Hc, Hti', Hti. cbn. auto.
Qed.


Lemma in_content_browse5 :
  viewport_in_content (Viewport browse5) /\
  viewport_in_content (Viewport scrolled5).
Proof.
  unfold viewport_in_content, GoInt.len, GoInt.max_int. cbn.
  repeat split; lia.
Qed.



(** One navigation key on a browsing model over a non-empty listing,
    the viewport's offset inside its content: [Update] returns, and the
    cursor is on an entry. *)
Lemma nav_step_in_range (e : Env) (m : model) (msg : Msg) :
  Files m <> [] ->
  GoInt.len (Files m) <= GoInt.max_int ->
  focused m = false ->
  viewport_in_content (Viewport m) ->
  isNav msg = true ->
  exists m', Update e m msg = (Some (m', tea.Batch), []) /\
             Files m' = Files m /\
             focused m' = false /\
             viewport_in_content (Viewport m') /\
             cursor_in_range m'.
Proof.
  intros Hne Hlen Hf Hv Hnav.
  destruct msg as [k | | |]; try discriminate. simpl in Hnav.
  assert (Hk : exists c,
             (keyCase (tea.String k) = CaseUp /\
              c = GoInt.sub (Cursor m) 1) \/
             (keyCase (tea.String k) = CaseDown /\
              c = GoInt.add (Cursor m) 1)).
  { destruct (keyCase (tea.String k)); try discriminate; eauto. }
  destruct Hk as [c Hk].
  destruct (nav_step e m k c Hf Hv Hk) as (m' & Hu & Hfs & Hc & Hf' & Hv').
  exists m'. do 4 (split; [assumption|]).
  pose proof (fixCursor_in_range (set_Cursor c m) Hne Hlen) as H.
  destruct (fixCursor_frame (set_Cursor c m)) as (Hfs' & _).
  unfold cursor_in_range in *. rewrite Hfs' in H. rewrite Hc, Hfs.
  exact H.
Qed.

(** The first half of the navigation invariant: any sequence of up/down
    keys on a browsing model whose cursor is on an entry and whose
    viewport offset lies inside its content runs to the end and leaves
    the cursor on an entry of the same listing. *)
Lemma nav_run_in_range (events : list (Env * Msg)) :
  forall m : model,
    GoInt.len (Files m) <= GoInt.max_int ->
    focused m = false ->
    viewport_in_content (Viewport m) ->
    cursor_in_range m ->
    Forall (fun ev => isNav (snd ev) = true) events ->
    exists m', run m events = Some m' /\
               Files m' = Files m /\ cursor_in_range m'.
Proof.
  induction events as [| [e msg] rest IH]; intros m Hlen Hf Hv Hr Hall.
  - exists m. simpl. auto.
  - inversion Hall as [| ? ? Hnav Hrest]; subst. simpl in Hnav.
    assert (Hne : Files m <> []).
    { unfold cursor_in_range, GoInt.len in Hr.
      destruct (Files m); [simpl in Hr; lia | discriminate]. }
    destruct (nav_step_in_range e m msg Hne Hlen Hf Hv Hnav)
      as (m1 & Hu & Hfs & Hf1 & Hv1 & Hr1).
    destruct (IH m1) as (m' & Hrun & Hfs' & Hr'); auto.
    { rewrite Hfs. assumption. }
    exists m'. simpl. rewrite Hu. rewrite Hfs' , Hfs in *. auto.
Qed.

(** The scroll after a move is by one row: a jump from the first entry
    to the last leaves the cursor below the window whenever the listing
    is longer than the window by more than one row. *)
Lemma wrap_up_leaves_band (e : Env) (m : model) (k : tea.Key) :
  focused m = false ->
  keyCase (tea.String k) = CaseUp ->
  Cursor m = 0 ->
  viewport.YOffset (Viewport m) = 0 ->
  1 <= viewport.Height (Viewport m) ->
  viewport.Height (Viewport m) + 1 < GoInt.len (Files m) ->
  GoInt.len (Files m) <= GoInt.max_int ->
  GoInt.len (viewport.lines (Viewport m)) <= GoInt.max_int ->
  exists m', Update e m (tea.KeyMsg k) = (Some (m', tea.Batch), []) /\
             Cursor m' = GoInt.len (Files m) - 1 /\
             ~ cursor_in_band m'.
Proof.
  intros Hf Hk Hc Hy Hh Hlong Hlen Hlines.
  assert (Hne : Files m <> []).
  { intros E. rewrite E in Hlong. unfold GoInt.len in Hlong. simpl in Hlong.
    lia. }
  assert (Hv : viewport_in_content (Viewport m)).
  { pose proof (len_nonneg (viewport.lines (Viewport m))).
    unfold viewport_in_content. rewrite Hy. repeat split; lia. }
  set (m0 := set_Cursor (GoInt.sub (Cursor m) 1) m).
  assert (Hc1 : Cursor (fixCursor m0) = GoInt.len (Files m) - 1).
  { apply (fixCursor_wraps_up m0); auto. unfold m0. rewrite Hc. reflexivity. }
  destruct (fixCursor_frame m0) as (_ & Hvp & _).
  rewrite (Update_up e m k Hf Hk). fold m0.
  unfold fixViewport. rewrite Hc1, Hvp. cbn [Viewport set_Cursor m0].
  rewrite Hy.
  assert (Hb : GoInt.sub (GoInt.add (viewport.Height (Viewport m)) 0) 1
               = viewport.Height (Viewport m) - 1).
  { rewrite add_exact by int_range. rewrite sub_exact by int_range. lia. }
  rewrite Hb.
  destruct (Z.ltb_spec (GoInt.len (Files m) - 1) 0); [lia|].
  destruct (Z.gtb_spec (GoInt.len (Files m) - 1)
              (viewport.Height (Viewport m) - 1)); [|lia].
  destruct (LineDown_in_content _ Hv)
    as (v' & shown & Hd & _ & Hh' & Hy').
  rewrite Hd. eexists. split; [reflexivity|].
  split; [cbn; exact Hc1|].
  unfold cursor_in_band. cbn. rewrite Hc1, Hh'.
  destruct Hy' as [Hy' | [_ Hy']]; rewrite Hy', Hy; lia.
Qed.

(** C1. The cursor stays on an entry ([nav_run_in_range]), but it does
    not stay in the visible band.  Five entries in a window of two rows,
    the first entry selected and visible: one up key wraps the cursor to
    the last entry, index 4, while [fixViewport] scrolls by a single row,
    to the band [1, 2]. *)
Theorem C1_wrap_around_leaves_band :
  cursor_in_range browse5 /\ cursor_in_band browse5 /\
  exists m', Update env5 browse5 keyUp = (Some (m', tea.Batch), []) /\
             Cursor m' = 4 /\
             viewport.YOffset (Viewport m') = 1 /\
             viewport.Height (Viewport m') = 2 /\
             cursor_in_range m' /\
             ~ cursor_in_band m'.
Proof.
  split; [|split].
  - unfold cursor_in_range. simpl. unfold GoInt.len. simpl. lia.
  - unfold cursor_in_band. simpl. lia.
  - eexists. split; [vm_compute; reflexivity|].
    repeat split; try reflexivity.
    + simpl. lia.
    + unfold cursor_in_band. simpl. lia.
Qed.

(** The band is also lost without a wrap-around.  A resize installs a
    viewport without content, which is at its bottom from the start, so
    [LineDown] does not scroll: two down keys after a resize to a window
    of two rows put the cursor on index 2 with the band still [0, 1]. *)
Lemma resize_then_down_leaves_band :
  exists m',
    run browse5 [(env5, tea.WindowSizeMsg 80 3); (env5, keyDown);
                 (env5, keyDown)] = Some m' /\
    Cursor m' = 2 /\
    viewport.YOffset (Viewport m') = 0 /\
    viewport.Height (Viewport m') = 2 /\
    cursor_in_range m' /\ ~ cursor_in_band m'.
Proof.
  eexists. split; [vm_compute; reflexivity|].
  repeat split; try reflexivity.
  - simpl. lia.
  - unfold cursor_in_band. simpl. lia.
Qed.

(* ================================================================== *)
(** ** The empty listing *)


(** C3. With an empty listing the reads are not guarded.  The initial
    model has no entries and cursor 0: the enter key indexes
    [m.Files[m.Cursor]] and panics, and the up key leaves the cursor on
    [len(m.Files) - 1 = -1]. *)
Theorem C3_empty_listing_is_not_guarded :
  Files createInitialModel = [] /\ Cursor createInitialModel = 0 /\
  Update env5 createInitialModel keyEnter = (None, []) /\
  Update env5 createInitialModel (key " ") = (None, []) /\
  exists m', Update env5 createInitialModel keyUp
             = (Some (m', tea.Batch), []) /\
             Files m' = [] /\ Cursor m' = -1.
Proof.
  repeat split; try reflexivity.
  eexists. split; [vm_compute; reflexivity|]. split; reflexivity.
Qed.

(* ================================================================== *)
(** ** Listing results and resizes *)

(** C5 as stated fails: a listing result that arrives while the last of
    five entries is selected and the window is scrolled to row 3 leaves
    the cursor on 4 and the offset on 3. *)
Lemma C5_counterexample :
  exists m', Update env5 scrolled5 (tea.AppMsg [entry "z" false])
             = (Some (m', tea.Nil), []) /\
             Files m' = [entry "z" false] /\
             Cursor m' = 4 /\
             viewport.YOffset (Viewport m') = 3 /\
             ~ (Cursor m' = 0 /\ viewport.YOffset (Viewport m') = 0).
Proof.
  eexists. split; [vm_compute; reflexivity|].
  repeat split; try reflexivity. simpl. intros [H _]. discriminate.
Qed.

(** C5, amended. A listing result replaces the listing and nothing
    else: cursor, viewport, text input and mode flags are those of the
    prior model, no command is returned and the filesystem is not
    called. *)
Theorem C5_listing_result_replaces_listing_only
  (e : Env) (m : model) (files : fileStatus) :
  Update e m (tea.AppMsg files) = (Some (set_Files files m, tea.Nil), []) /\
  Files (set_Files files m) = files /\
  Cursor (set_Files files m) = Cursor m /\
  Viewport (set_Files files m) = Viewport m /\
  TextInput (set_Files files m) = TextInput m /\
  mode (set_Files files m) = mode m.
Proof. repeat split; reflexivity. Qed.

(** C9 as stated fails: the last of five entries is selected and visible
    in the band [3, 4]; a resize to three screen rows keeps the two-row
    window but puts it back on row 0, and the cursor is outside of the
    band [0, 1]. *)
Lemma C9_counterexample :
  cursor_in_band scrolled5 /\
  exists m', Update env5 scrolled5 (tea.WindowSizeMsg 80 3)
             = (Some (m', tea.Batch), []) /\
             Cursor m' = 4 /\
             viewport.Height (Viewport m') = 2 /\
             viewport.YOffset (Viewport m') = 0 /\
             ~ cursor_in_band m'.
Proof.
  split.
  - unfold cursor_in_band. simpl. lia.
  - eexists. split; [vm_compute; reflexivity|].
    repeat split; try reflexivity.
    unfold cursor_in_band. simpl. lia.
Qed.

(** C9, amended. A resize leaves the cursor, the listing and the mode
    unchanged, records the screen size, and replaces the viewport by a
    fresh one of the new width and of the new height less one row, at
    offset 0 and without content; the band is not re-established. *)
Theorem C9_resize_keeps_cursor_and_mode
  (e : Env) (m : model) (w h : Z) :
  exists m', Update e m (tea.WindowSizeMsg w h)
             = (Some (m', tea.Batch), []) /\
             Cursor m' = Cursor m /\
             Files m' = Files m /\
             mode m' = mode m /\
             Move m' = Move m /\ Rename m' = Rename m /\
             Delete m' = Delete m /\ ShowHelp m' = ShowHelp m /\
             focused m' = focused m /\
             buffer m' = buffer m /\
             ScreenWidth m' = w /\ ScreenHeight m' = h /\
             Viewport m' = viewport.literal w (GoInt.sub h 1).
Proof.
  eexists. split; [reflexivity|]. simpl.
  unfold focused, buffer, textinput.Update, textinput.Focused. simpl.
  destruct (textinput.focus (TextInput m)) eqn:E; simpl; rewrite ?E;
    repeat split; reflexivity.
Qed.

(* ================================================================== *)
(** ** Prompts *)

Lemma mode_DeleteConfirm (m : model) :
  mode m = DeleteConfirm ->
  Rename m = false /\ Move m = false /\ Delete m = true.
Proof.
  unfold mode.
  destruct (Rename m), (Move m), (Delete m), (ShowHelp m);
    intros H; try discriminate; auto.
Qed.

(** What holds of a commit without ["y"].  In delete-confirm mode (the
    delete flag is the active prompt and the text input has the focus), a
    commit with a buffer other than ["y"] calls neither [DeleteFile] nor
    [DeleteDirectory] nor any other mutating function of the filesystem;
    with the cursor on an entry it makes exactly one call, the listing of
    ["./"], installs that listing and leaves the prompt. *)
Lemma delete_commit_without_y (e : Env) (m : model) (k : tea.Key) :
  mode m = DeleteConfirm ->
  focused m = true ->
  buffer m <> "y" ->
  keyCase (tea.String k) = CaseEnter ->
  Forall (fun c => filesystem.deletes c = false /\
                   filesystem.mutates c = false)
         (snd (Update e m (tea.KeyMsg k))) /\
  (cursor_in_range m ->
   exists m', Update e m (tea.KeyMsg k)
              = (Some (m', tea.Batch), [CallGetDirectoryListing "./"]) /\
              Files m' = listing e "./" /\
              Cursor m' = Cursor m /\
              Delete m' = false /\
              focused m' = false).
Proof.
  intros Hmode Hf Hb Hk.
  destruct (mode_DeleteConfirm m Hmode) as (Hr & Hm & Hd).
  rewrite Update_key by congruence. rewrite Hk.
  unfold onKey, onEnter, selected, buffer in *.
  assert (Hy : (textinput.Value (TextInput m) =? "y")%string = false).
  { destruct (String.eqb_spec (textinput.Value (TextInput m)) "y");
      [contradiction | reflexivity]. }
  split.
  - destruct (GoInt.index (Files m) (Cursor m)) as [f|]; cbn.
    + rewrite Hf, Hr, Hm, Hd, Hy, Bool.andb_false_r.
      destruct (IsDir f); cbn; repeat constructor.
    + constructor.
  - intros Hrange.
    destruct (index_in_range _ _ Hrange) as [f Hi]. rewrite Hi. cbn.
    rewrite Hf, Hr, Hm, Hd, Hy, Bool.andb_false_r.
    destruct (IsDir f); cbn; eexists; (split; [reflexivity|]);
      repeat split; reflexivity.
Qed.

Lemma delete_commit_without_y_example :
  mode (prompt5 set_Delete "n") = DeleteConfirm /\
  focused (prompt5 set_Delete "n") = true /\
  buffer (prompt5 set_Delete "n") <> "y" /\
  cursor_in_range (prompt5 set_Delete "n") /\
  exists m', Update env5 (prompt5 set_Delete "n") keyEnter
             = (Some (m', tea.Batch), [CallGetDirectoryListing "./"]) /\
             Files m' = listing env5 "./" /\
             Cursor m' = Cursor (prompt5 set_Delete "n") /\
             Delete m' = false /\
             focused m' = false.
Proof.
  assert (Hr : cursor_in_range (prompt5 set_Delete "n")).
  { unfold cursor_in_range, GoInt.len. simpl. lia. }
  assert (Hb : buffer (prompt5 set_Delete "n") <> "y") by discriminate.
  repeat split; try reflexivity; try assumption; try apply Hr.
  apply (delete_commit_without_y env5 (prompt5 set_Delete "n")
           (tea.special tea.KeyEnter));
    try reflexivity; assumption.
Defined.

(** With ["y"] in the buffer the same commit does delete: the buffer
    decides and nothing else. *)
Lemma delete_confirmed_deletes :
  snd (Update env5 (prompt5 set_Delete "y") keyEnter)
  = [CallDeleteFile "a.txt"; CallGetDirectoryListing "./"].
Proof. reflexivity. Qed.

(** C4. The delete job is never invoked without ["y"]
    ([delete_commit_without_y]), but the re-list is not always issued.
    With no entry in the listing the key ["d"] opens the delete prompt on
    the initial model and is typed into the buffer; the commit key then
    evaluates [m.Files[m.Cursor]] on the empty listing, and [Update]
    panics before any listing is asked for. *)
Theorem C4_commit_without_entry_does_not_relist :
  reachable deleting0 /\
  mode deleting0 = DeleteConfirm /\
  focused deleting0 = true /\
  buffer deleting0 = "d" /\
  buffer deleting0 <> "y" /\
  Files deleting0 = [] /\
  Update env5 deleting0 keyEnter = (None, []) /\
  Update env5 deleting0 (key " ") = (None, []).
Proof.
  split.
  - apply (reach_step env5 createInitialModel (key "d") deleting0
             tea.Batch []); [apply reach_init | reflexivity].
  - repeat split; try reflexivity. discriminate.
Qed.

(** Case analysis on the tests a hypothesis about [onKey] runs through. *)
Ltac break_flow H :=
  repeat match type of H with
         | context [match GoInt.index ?l ?i with _ => _ end] =>
             destruct (GoInt.index l i) eqn:?; cbn in H
         | context [if ?b then _ else _] => destruct b eqn:?; cbn in H
         end.

(** C8 as stated fails: in an open rename prompt holding ["ab"], the key
    ["q"] is neither the cancel nor the commit key, yet it is not typed
    into the buffer (that would give ["abq"]): [Update] returns the model
    as it is together with the quit command. *)
Lemma C8_counterexample :
  focused (prompt5 set_Rename "ab") = true /\
  keyCase (tea.String (tea.rune "q")) <> CaseEnter /\
  keyCase (tea.String (tea.rune "q")) <> CaseEsc /\
  Update env5 (prompt5 set_Rename "ab") (key "q")
  = (Some (prompt5 set_Rename "ab", tea.Quit), []) /\
  buffer (prompt5 set_Rename "ab") = "ab" /\
  textinput.Value
    (textinput.Update (TextInput (prompt5 set_Rename "ab")) (key "q"))
  = "abq".
Proof. repeat split; try reflexivity; discriminate. Qed.

(** C8, amended. While the text input has the focus, the up, down and
    back keys, the three mode keys and every key without a case of its
    own change nothing but the text input, which receives the key; mouse
    events (the scroll wheel) change nothing at all.  In particular the
    cursor, the listing and the viewport stay as they are.  The quit keys
    ["q"] and ["ctrl+c"] are reserved together with commit and cancel;
    nothing is said about the help key ["i"]. *)
Theorem C8_prompt_routes_keys_to_input (e : Env) (m : model) (k : tea.Key) :
  focused m = true ->
  guarded_case (keyCase (tea.String k)) = true ->
  Update e m (tea.KeyMsg k)
  = (Some (set_TextInput (textinput.edit k (TextInput m)) m, tea.Batch), [])
  /\ Cursor (set_TextInput (textinput.edit k (TextInput m)) m) = Cursor m
  /\ Viewport (set_TextInput (textinput.edit k (TextInput m)) m) = Viewport m
  /\ Files (set_TextInput (textinput.edit k (TextInput m)) m) = Files m
  /\ forall t : tea.MouseEventType,
       Update e m (tea.MouseMsg t) = (Some (m, tea.Batch), []).
Proof.
  intros Hf Hg. unfold focused, textinput.Focused in Hf. split.
  - rewrite Update_key by (intros E; rewrite E in Hg; discriminate).
    destruct (keyCase (tea.String k)); try discriminate;
      unfold onKey, focused, textinput.Focused; rewrite ?Hf; cbn;
      unfold textinput.Update; rewrite Hf; reflexivity.
  - repeat split; try reflexivity.
    intros t. unfold Update. cbn. unfold textinput.Update. rewrite Hf. cbn.
    rewrite set_TextInput_same. reflexivity.
Qed.

Lemma C8_prompt_routes_keys_to_input_witness :
  focused (prompt5 set_Rename "ab") = true /\
  guarded_case (keyCase (tea.String (tea.special tea.KeyUp))) = true /\
  exists m', Update env5 (prompt5 set_Rename "ab") keyUp
             = (Some (m', tea.Batch), []) /\
             Cursor m' = 0 /\ buffer m' = "ab".
Proof.
  split; [reflexivity|]. split; [reflexivity|].
  eexists. split.
  - apply (C8_prompt_routes_keys_to_input env5 (prompt5 set_Rename "ab")
             (tea.special tea.KeyUp)); reflexivity.
  - split; reflexivity.
Defined.

(** The two repair functions touch the cursor and the viewport only. *)
Lemma nav_flags (m m' : model) (c : Z) :
  fixViewport false (fixCursor (set_Cursor c m)) = Some m' ->
  TextInput m' = TextInput m /\ Move m' = Move m /\ Rename m' = Rename m /\
  Delete m' = Delete m /\ ShowHelp m' = ShowHelp m.
Proof.
  intros H.
  destruct (fixViewport_scroll_frame _ _ H)
    as (_ & _ & -> & -> & -> & -> & ->).
  destruct (fixCursor_frame (set_Cursor c m))
    as (_ & _ & -> & -> & -> & -> & ->).
  repeat split; reflexivity.
Qed.

(** The navigation cases leave the text input and the flags alone. *)
Lemma onKey_nav_flags (e : Env) (m : model) (c : KeyCase) (r : Flow)
  (calls : list FsCall) :
  c = CaseUp \/ c = CaseDown ->
  onKey e m c = (Some r, calls) ->
  TextInput (flow_model r) = TextInput m /\
  Move (flow_model r) = Move m /\
  Rename (flow_model r) = Rename m /\
  Delete (flow_model r) = Delete m /\
  ShowHelp (flow_model r) = ShowHelp m.
Proof.
  intros Hc H.
  assert (Hcur : exists cur,
             (c = CaseUp /\ cur = GoInt.sub (Cursor m) 1) \/
             (c = CaseDown /\ cur = GoInt.add (Cursor m) 1))
    by (destruct Hc; eauto).
  destruct Hcur as [cur Hcur]. rewrite (onKey_nav e m c cur Hcur) in H.
  destruct (negb (focused m)).
  - destruct (fixViewport false (fixCursor (set_Cursor cur m)))
      as [m1|] eqn:E; [|discriminate].
    injection H as <- <-. exact (nav_flags m m1 cur E).
  - injection H as <- <-. repeat split; reflexivity.
Qed.

(** The help flag survives every case of the key switch but the cancel
    case. *)
Lemma onKey_keeps_help (e : Env) (m : model) (c : KeyCase) (r : Flow)
  (calls : list FsCall) :
  ShowHelp m = true ->
  c <> CaseEsc ->
  onKey e m c = (Some r, calls) ->
  ShowHelp (flow_model r) = true.
Proof.
  intros Hh Hc H.
  assert (Hnav : c = CaseUp \/ c = CaseDown ->
                 ShowHelp (flow_model r) = true).
  { intros Hud.
    destruct (onKey_nav_flags e m c r calls Hud H) as (_ & _ & _ & _ & ->).
    assumption. }
  destruct c; try congruence; try (apply Hnav; auto; fail); clear Hnav;
    unfold onKey, onEnter, selected, relist in H; cbn in H;
    break_flow H; inversion H; subst; cbn; try assumption; reflexivity.
Qed.

Lemma Update_keeps_help (e : Env) (m : model) (k : tea.Key) (m' : model)
  (cmd : tea.Cmd) (calls : list FsCall) :
  ShowHelp m = true ->
  keyCase (tea.String k) <> CaseEsc ->
  Update e m (tea.KeyMsg k) = (Some (m', cmd), calls) ->
  ShowHelp m' = true.
Proof.
  intros Hh Hk H. unfold Update in H.
  destruct (isQuit (tea.KeyMsg k)).
  - inversion H; subst. assumption.
  - cbn [dispatch] in H. unfold bind in H.
    destruct (onKey e m (keyCase (tea.String k))) as [[r|] t] eqn:E;
      [|discriminate].
    pose proof (onKey_keeps_help e m _ r t Hh Hk E) as Hr.
    destruct r; cbn in H; inversion H; subst; cbn in *; assumption.
Qed.

Lemma Update_esc (e : Env) (m : model) (k : tea.Key) :
  keyCase (tea.String k) = CaseEsc ->
  Update e m (tea.KeyMsg k)
  = (Some (blur (set_ShowHelp false
                   (set_Delete false
                      (set_Rename false (set_Move false m)))), tea.Batch),
     []).
Proof.
  intros Hk. rewrite Update_key by congruence. rewrite Hk.
  unfold onKey. cbn [bind ret app].
  rewrite textinput_Update_blurred by reflexivity.
  rewrite set_TextInput_same. reflexivity.
Qed.

(** C7 as stated fails: with the help screen shown over five entries,
    the key ["j"] moves the cursor and the help screen stays. *)
Lemma C7_counterexample :
  mode help5 = HelpScreen /\
  exists m', Update env5 help5 (key "j") = (Some (m', tea.Batch), []) /\
             Cursor m' = 1 /\
             mode m' = HelpScreen /\ mode m' <> Browse.
Proof.
  split; [reflexivity|].
  eexists. split; [vm_compute; reflexivity|].
  repeat split; try reflexivity. discriminate.
Qed.

(** C7, amended. From help mode the cancel key ["esc"] returns the model
    to browse mode; after every other key the help flag is still set. *)
Theorem C7_help_is_left_by_esc (e : Env) (m : model) (k : tea.Key) :
  mode m = HelpScreen ->
  (keyCase (tea.String k) = CaseEsc ->
   exists m', Update e m (tea.KeyMsg k) = (Some (m', tea.Batch), []) /\
              mode m' = Browse /\ ShowHelp m' = false /\
              Cursor m' = Cursor m /\ Files m' = Files m) /\
  (keyCase (tea.String k) <> CaseEsc ->
   forall m' cmd calls,
     Update e m (tea.KeyMsg k) = (Some (m', cmd), calls) ->
     ShowHelp m' = true /\ mode m' <> Browse).
Proof.
  intros Hmode.
  assert (Hh : ShowHelp m = true).
  { unfold mode in Hmode.
    destruct (Rename m), (Move m), (Delete m), (ShowHelp m);
      try discriminate; reflexivity. }
  split.
  - intros Hk. eexists. split; [apply Update_esc; assumption|].
    repeat split; reflexivity.
  - intros Hk m' cmd calls H.
    pose proof (Update_keeps_help e m k m' cmd calls Hh Hk H) as Hh'.
    split; [assumption|].
    unfold mode. rewrite Hh'.
    destruct (Rename m'), (Move m'), (Delete m'); discriminate.
Qed.

Lemma C7_help_is_left_by_esc_witness :
  mode help5 = HelpScreen /\
  (exists m', Update env5 help5 keyEsc = (Some (m', tea.Batch), []) /\
              mode m' = Browse /\ ShowHelp m' = false /\
              Cursor m' = Cursor help5 /\ Files m' = Files help5) /\
  (forall m' cmd calls,
     Update env5 help5 keyDown = (Some (m', cmd), calls) ->
     ShowHelp m' = true /\ mode m' <> Browse).
Proof.
  split; [reflexivity|]. split.
  - apply (C7_help_is_left_by_esc env5 help5 (tea.special tea.KeyEsc));
      reflexivity.
  - apply (C7_help_is_left_by_esc env5 help5 (tea.special tea.KeyDown));
      [reflexivity | discriminate].
Defined.

(* ================================================================== *)
(** ** The prompt flags *)

Lemma prompt_inv_ext (m m' : model) :
  Move m' = Move m -> Rename m' = Rename m -> Delete m' = Delete m ->
  focused m' = focused m ->
  prompt_inv m -> prompt_inv m'.
Proof.
  unfold prompt_inv, flags_set. intros -> -> -> ->. auto.
Qed.

(** Every case of the key switch keeps the invariant of the flags. *)
Lemma onKey_prompt_inv (e : Env) (m : model) (c : KeyCase) (r : Flow)
  (calls : list FsCall) :
  prompt_inv m ->
  onKey e m c = (Some r, calls) ->
  prompt_inv (flow_model r).
Proof.
  intros Hinv H.
  assert (Hnav : c = CaseUp \/ c = CaseDown -> prompt_inv (flow_model r)).
  { intros Hud.
    destruct (onKey_nav_flags e m c r calls Hud H)
      as (Hti & Hmv & Hrn & Hdl & _).
    apply (prompt_inv_ext m); auto.
    unfold focused. rewrite Hti. reflexivity. }
  destruct c; try (apply Hnav; auto; fail); clear Hnav;
    destruct m as [fs cur vp ti vr sw sh mv rn dl hp];
    destruct ti as [pr ph cl wd v ps fc];
    unfold prompt_inv, flags_set, focused, textinput.Focused in *;
    unfold onKey, onEnter, selected, relist, focused, textinput.Focused in H;
    cbn in H, Hinv;
    destruct Hinv as [H1 H2];
    destruct mv, rn, dl; cbn in H1; try lia;
    destruct fc;
    try (exfalso; cbn in H2; specialize (H2 ltac:(lia)); discriminate);
    cbn in H; break_flow H; inversion H; subst; cbn;
    (split; [lia | intros; try reflexivity; try (exfalso; lia); auto]).
Qed.

(** [Update] keeps the invariant of the flags. *)
Lemma Update_prompt_inv (e : Env) (m : model) (msg : Msg) (m' : model)
  (cmd : tea.Cmd) (calls : list FsCall) :
  prompt_inv m ->
  Update e m msg = (Some (m', cmd), calls) ->
  prompt_inv m'.
Proof.
  intros Hinv H. unfold Update in H.
  destruct (isQuit msg).
  { inversion H; subst. assumption. }
  unfold bind in H.
  destruct (dispatch e m msg) as [[r|] t] eqn:E; [|discriminate].
  assert (Hr : prompt_inv (flow_model r)).
  { destruct msg as [k | t0 | w h | files]; cbn in E.
    - apply (onKey_prompt_inv e m _ r t Hinv E).
    - inversion E; subst. assumption.
    - inversion E; subst. apply (prompt_inv_ext m); auto.
    - inversion E; subst. apply (prompt_inv_ext m); auto. }
  destruct r as [m1 c1 | m1]; cbn in H, Hr; inversion H; subst.
  - assumption.
  - apply (prompt_inv_ext m1); auto.
    unfold focused. cbn. apply textinput_Update_focus.
Qed.

(** A case of the key switch that raises a flag starts without focus and
    ends with it. *)
Lemma onKey_flag_raised (e : Env) (m : model) (c : KeyCase) (r : Flow)
  (calls : list FsCall) :
  onKey e m c = (Some r, calls) ->
  (flags_set m < flags_set (flow_model r))%nat ->
  focused m = false /\ focused (flow_model r) = true.
Proof.
  intros H Hlt.
  assert (Hnav : c = CaseUp \/ c = CaseDown -> False).
  { intros Hud.
    destruct (onKey_nav_flags e m c r calls Hud H)
      as (_ & Hmv & Hrn & Hdl & _).
    unfold flags_set in Hlt. rewrite Hmv, Hrn, Hdl in Hlt. lia. }
  destruct c; try (exfalso; apply Hnav; auto; fail); clear Hnav;
    destruct m as [fs cur vp ti vr sw sh mv rn dl hp];
    destruct ti as [pr ph cl wd v ps fc];
    unfold flags_set, focused, textinput.Focused in *;
    unfold onKey, onEnter, selected, relist, focused, textinput.Focused in H;
    cbn in H;
    destruct mv, rn, dl, fc;
    cbn in H; break_flow H; inversion H; subst; cbn in Hlt; cbn;
    first [ lia | split; reflexivity ].
Qed.

(** A step that raises a flag starts without focus and ends with it. *)
Lemma flag_raised_by_unfocused_key (e : Env) (m : model) (msg : Msg)
  (m' : model) (cmd : tea.Cmd) (calls : list FsCall) :
  Update e m msg = (Some (m', cmd), calls) ->
  (flags_set m < flags_set m')%nat ->
  focused m = false /\ focused m' = true.
Proof.
  intros H Hlt. unfold Update in H.
  destruct (isQuit msg).
  { inversion H; subst. lia. }
  unfold bind in H.
  destruct (dispatch e m msg) as [[r|] t] eqn:E; [|discriminate].
  assert (Hm' : flags_set m' = flags_set (flow_model r) /\
                focused m' = focused (flow_model r)).
  { destruct r as [m1 c1 | m1]; cbn in H; inversion H; subst; cbn.
    - split; reflexivity.
    - split; [reflexivity|]. unfold focused. cbn.
      apply textinput_Update_focus. }
  destruct Hm' as [Hfl Hfo]. rewrite Hfl in Hlt. rewrite Hfo.
  destruct msg as [k | t0 | w h | files]; cbn in E.
  - apply (onKey_flag_raised e m _ r t E Hlt).
  - inversion E; subst. cbn in Hlt. lia.
  - inversion E; subst. unfold flags_set in Hlt. cbn in Hlt. lia.
  - inversion E; subst. unfold flags_set in Hlt. cbn in Hlt. lia.
Qed.

(** C10. In every state reachable from the initial model at most one of
    the flags [Move], [Rename], [Delete] is set, and a set flag goes
    with a focused text input; a flag is only ever raised by a step that
    starts without focus and ends with it. *)
Theorem C10_at_most_one_prompt_flag (m : model) :
  reachable m ->
  (flags_set m <= 1)%nat /\
  (Move m || Rename m || Delete m = true -> focused m = true) /\
  (forall e msg m' cmd calls,
     Update e m msg = (Some (m', cmd), calls) ->
     (flags_set m < flags_set m')%nat ->
     focused m = false /\ focused m' = true).
Proof.
  intros Hreach.
  assert (Hinv : prompt_inv m).
  { induction Hreach as [| e m msg m' cmd calls _ IH Hstep].
    - split; [cbn; lia | intros H; cbn in H; congruence].
    - eapply Update_prompt_inv; eassumption. }
  destruct Hinv as [H1 H2]. split; [assumption|]. split.
  - intros Hflag. apply H2. unfold flags_set.
    destruct (Move m), (Rename m), (Delete m); cbn in *;
      try discriminate; lia.
  - intros e msg m' cmd calls. apply flag_raised_by_unfocused_key.
Qed.

Lemma C10_at_most_one_prompt_flag_witness :
  reachable deleting0 /\
  Delete deleting0 = true /\
  (flags_set deleting0 <= 1)%nat /\
  (Move deleting0 || Rename deleting0 || Delete deleting0 = true ->
   focused deleting0 = true) /\
  (forall e msg m' cmd calls,
     Update e deleting0 msg = (Some (m', cmd), calls) ->
     (flags_set deleting0 < flags_set m')%nat ->
     focused deleting0 = false /\ focused m' = true).
Proof.
  assert (Hr : reachable deleting0).
  { apply (reach_step env5 createInitialModel (key "d") deleting0
             tea.Batch []); [apply reach_init | reflexivity]. }
  split; [exact Hr|]. split; [reflexivity|].
  apply (C10_at_most_one_prompt_flag deleting0 Hr).
Defined.

(* ================================================================== *)
(** ** Entering and leaving a prompt *)

(** C6 as stated fails on both counts: cancelling a rename prompt that
    holds ["old"] returns to browse mode with ["old"] still in the
    buffer, and the rename key pressed on a browsing model whose buffer
    holds ["old"] opens the prompt without clearing it. *)
Lemma C6_counterexample :
  (mode (prompt5 set_Rename "old") = RenamePrompt /\
   exists m', Update env5 (prompt5 set_Rename "old") keyEsc
              = (Some (m', tea.Batch), []) /\
              mode m' = Browse /\
              buffer m' = "old" /\ buffer m' <> EmptyString) /\
  (mode stale5 = Browse /\ focused stale5 = false /\
   exists m', Update env5 stale5 (key "r") = (Some (m', tea.Batch), []) /\
              mode m' = RenamePrompt /\
              buffer m' <> EmptyString).
Proof.
  split; (split; [reflexivity|]).
  - eexists. split; [vm_compute; reflexivity|].
    repeat split; try reflexivity. discriminate.
  - split; [reflexivity|].
    eexists. split; [vm_compute; reflexivity|].
    split; [reflexivity | discriminate].
Qed.

(** A mode key pressed on a browsing model. *)
Lemma Update_mode_key (e : Env) (m : model) (k : tea.Key)
  (flag : bool -> model -> model) (placeholder : string) :
  focused m = false ->
  onKey e m (keyCase (tea.String k))
  = ret (Next (focus_with placeholder (flag true m))) ->
  TextInput (flag true m) = TextInput m ->
  keyCase (tea.String k) <> CaseQuit ->
  Update e m (tea.KeyMsg k)
  = (Some (set_TextInput
             (textinput.edit k
                (textinput.Focus
                   (textinput.set_Placeholder placeholder (TextInput m))))
             (focus_with placeholder (flag true m)), tea.Batch), []).
Proof.
  intros Hf Hon Hti Hq. rewrite Update_key by assumption. rewrite Hon.
  cbn [bind ret app]. unfold focus_with at 1. cbn [TextInput set_TextInput].
  rewrite Hti. reflexivity.
Qed.

(** C6, amended. Entering a prompt mode from a browsing model sets the
    mode's flag and placeholder and focuses the text input; the buffer is
    not cleared, the input keeps its text and receives the mode key.
    Cancelling returns to browse mode, and committing with the cursor on
    an entry clears the prompt flag (back to browse mode unless the help
    flag is set); both take the focus away and leave the buffer as it
    is. *)
Theorem C6_prompt_entry_and_exit (e : Env) (m : model) (k : tea.Key) :
  (focused m = false ->
   forall (flag : bool -> model -> model) (placeholder : string),
     (keyCase (tea.String k) = CaseMove /\ flag = set_Move /\
      placeholder = "/usr/share/") \/
     (keyCase (tea.String k) = CaseRename /\ flag = set_Rename /\
      placeholder = "newfilename.ex") \/
     (keyCase (tea.String k) = CaseDelete /\ flag = set_Delete /\
      placeholder = "[y/n]") ->
     exists m', Update e m (tea.KeyMsg k) = (Some (m', tea.Batch), []) /\
                m' = set_TextInput (TextInput m') (flag true m) /\
                focused m' = true /\
                textinput.Placeholder (TextInput m') = placeholder /\
                TextInput m'
                = textinput.edit k
                    (textinput.Focus
                       (textinput.set_Placeholder placeholder
                          (TextInput m)))) /\
  (keyCase (tea.String k) = CaseEsc ->
   exists m', Update e m (tea.KeyMsg k) = (Some (m', tea.Batch), []) /\
              mode m' = Browse /\ flags_set m' = 0%nat /\
              focused m' = false /\ buffer m' = buffer m) /\
  (keyCase (tea.String k) = CaseEnter ->
   focused m = true -> flags_set m = 1%nat -> cursor_in_range m ->
   exists m' calls,
     Update e m (tea.KeyMsg k) = (Some (m', tea.Batch), calls) /\
     mode m' = (if ShowHelp m then HelpScreen else Browse) /\
     flags_set m' = 0%nat /\
     focused m' = false /\ buffer m' = buffer m /\
     Files m' = listing e "./").
Proof.
  split; [|split].
  - intros Hf flag placeholder Hcase.
    assert (Hu : Update e m (tea.KeyMsg k)
                 = (Some (set_TextInput
                            (textinput.edit k
                               (textinput.Focus
                                  (textinput.set_Placeholder placeholder
                                     (TextInput m))))
                            (focus_with placeholder (flag true m)),
                          tea.Batch), [])).
    { destruct Hcase as [(Hk & -> & ->) | [(Hk & -> & ->) | (Hk & -> & ->)]];
        apply Update_mode_key; try assumption; try reflexivity;
        try congruence; rewrite Hk; unfold onKey; rewrite Hf; reflexivity. }
    eexists. split; [exact Hu|].
    assert (Hfe : forall t, textinput.focus t = true ->
                            textinput.focus (textinput.edit k t) = true).
    { intros t Ht. rewrite textinput_edit_focus. exact Ht. }
    assert (Hpe : forall t, textinput.Placeholder (textinput.edit k t)
                            = textinput.Placeholder t).
    { intros t. unfold textinput.edit.
      destruct (tea.Alt k); [reflexivity|].
      destruct (tea.Type_ k); cbn; try reflexivity;
        repeat match goal with
               | |- context [if ?b then _ else _] => destruct b
               end; reflexivity. }
    repeat split.
    + unfold focused, textinput.Focused. cbn. apply Hfe. reflexivity.
    + cbn. rewrite Hpe. reflexivity.
  - intros Hk. eexists. split; [apply Update_esc; assumption|].
    repeat split; reflexivity.
  - intros Hk Hf Hone Hrange.
    destruct (index_in_range _ _ Hrange) as [f Hi].
    rewrite Update_key by congruence. rewrite Hk.
    unfold onKey, onEnter, selected. rewrite Hi.
    destruct m as [fs cur vp ti vr sw sh mv rn dl hp];
      destruct ti as [pr ph cl wd v ps fc];
      unfold flags_set, focused, buffer, textinput.Focused, relist in *;
      cbn in Hf, Hone; subst fc;
      destruct mv, rn, dl; cbn in Hone; try discriminate;
      cbn; destruct (IsDir f); cbn;
      try (destruct (String.eqb v "y"); cbn);
      eexists; eexists; (split; [reflexivity|]);
      destruct hp; repeat split; reflexivity.
Qed.

Lemma C6_prompt_entry_and_exit_witness :
  (focused browse5 = false /\
   exists m', Update env5 browse5 (key "d") = (Some (m', tea.Batch), []) /\
              m' = set_TextInput (TextInput m') (set_Delete true browse5) /\
              focused m' = true /\
              textinput.Placeholder (TextInput m') = "[y/n]" /\
              TextInput m'
              = textinput.edit (tea.rune "d")
                  (textinput.Focus
                     (textinput.set_Placeholder "[y/n]"
                        (TextInput browse5)))) /\
  (exists m', Update env5 (prompt5 set_Move "x") keyEsc
              = (Some (m', tea.Batch), []) /\
              mode m' = Browse /\ flags_set m' = 0%nat /\
              focused m' = false /\
              buffer m' = buffer (prompt5 set_Move "x")) /\
  (focused (prompt5 set_Rename "x") = true /\
   flags_set (prompt5 set_Rename "x") = 1%nat /\
   cursor_in_range (prompt5 set_Rename "x") /\
   exists m' calls,
     Update env5 (prompt5 set_Rename "x") keyEnter
     = (Some (m', tea.Batch), calls) /\
     mode m' = (if ShowHelp (prompt5 set_Rename "x")
                then HelpScreen else Browse) /\
     flags_set m' = 0%nat /\
     focused m' = false /\
     buffer m' = buffer (prompt5 set_Rename "x") /\
     Files m' = listing env5 "./").
Proof.
  assert (Hr : cursor_in_range (prompt5 set_Rename "x")).
  { unfold cursor_in_range, GoInt.len. simpl. lia. }
  split; [|split].
  - split; [reflexivity|].
    apply (C6_prompt_entry_and_exit env5 browse5 (tea.rune "d"));
      [reflexivity|].
    right. right. repeat split; reflexivity.
  - apply (C6_prompt_entry_and_exit env5 (prompt5 set_Move "x")
             (tea.special tea.KeyEsc)). reflexivity.
  - split; [reflexivity|]. split; [reflexivity|]. split; [exact Hr|].
    apply (C6_prompt_entry_and_exit env5 (prompt5 set_Rename "x")
             (tea.special tea.KeyEnter)); try reflexivity. exact Hr.
Defined.

(* ================================================================== *)
(** ** Further properties of [Update] *)

Lemma index_none {A : Type} (l : list A) (i : Z) :
  GoInt.index l i = None <-> ~ (0 <= i < GoInt.len l).
Proof.
  unfold GoInt.index, GoInt.len. split.
  - destruct (Z.ltb_spec i 0); [lia|].
    intros E. apply nth_error_None in E. lia.
  - intros H. destruct (Z.ltb_spec i 0); [reflexivity|].
    apply nth_error_None. lia.
Qed.

(** X1. Navigation repairs and then keeps the cursor: on a browsing model
    over a non-empty listing, with the viewport's offset inside its
    content and whatever the cursor was, every non-empty sequence of
    up/down keys runs without a panic and ends with the cursor on an
    entry of the same listing. *)
Theorem X1_navigation_puts_cursor_on_entry
  (m : model) (events : list (Env * Msg)) :
  Files m <> [] ->
  GoInt.len (Files m) <= GoInt.max_int ->
  focused m = false ->
  viewport_in_content (Viewport m) ->
  events <> [] ->
  Forall (fun ev => isNav (snd ev) = true) events ->
  exists m', run m events = Some m' /\
             Files m' = Files m /\ cursor_in_range m'.
Proof.
  intros Hne Hlen Hf Hv Hev Hall.
  destruct events as [| [e msg] rest]; [congruence|].
  inversion Hall as [| ? ? Hnav Hrest]; subst. simpl in Hnav.
  destruct (nav_step_in_range e m msg Hne Hlen Hf Hv Hnav)
    as (m1 & Hu & Hfs & Hf1 & Hv1 & Hr1).
  destruct (nav_run_in_range rest m1) as (m' & Hrun & Hfs' & Hr'); auto.
  { rewrite Hfs. assumption. }
  exists m'. simpl. rewrite Hu. rewrite Hfs', Hfs in *. auto.
Qed.

Lemma X1_navigation_puts_cursor_on_entry_witness :
  ~ cursor_in_range (set_Cursor 99 browse5) /\
  exists m', run (set_Cursor 99 browse5) [(env5, keyUp); (env5, key "j")]
             = Some m' /\
             Files m' = Files (set_Cursor 99 browse5) /\
             cursor_in_range m'.
Proof.
  split.
  - unfold cursor_in_range, GoInt.len. simpl. lia.
  - apply (X1_navigation_puts_cursor_on_entry (set_Cursor 99 browse5)
             [(env5, keyUp); (env5, key "j")]);
      try reflexivity; try discriminate.
    + apply in_content_browse5.
    + repeat constructor.
Defined.






(** How a returning [Update] came about. *)
Lemma Update_inv (e : Env) (m : model) (msg : Msg) (m' : model)
  (cmd : tea.Cmd) (calls : list FsCall) :
  Update e m msg = (Some (m', cmd), calls) ->
  (isQuit msg = true /\ m' = m /\ cmd = tea.Quit /\ calls = []) \/
  (isQuit msg = false /\
   exists r, dispatch e m msg = (Some r, calls) /\
             (r = Return m' cmd \/
              exists m1, r = Next m1 /\ cmd = tea.Batch /\
                         m' = set_TextInput
                                (textinput.Update (TextInput m1) msg) m1)).
Proof.
  intros H. unfold Update in H. destruct (isQuit msg).
  - left. inversion H; subst. auto.
  - right. split; [reflexivity|]. unfold bind in H.
    destruct (dispatch e m msg) as [[r|] t]; [|discriminate].
    exists r. destruct r as [m1 c1 | m1]; cbn in H; inversion H; subst;
      rewrite app_nil_r; split; try reflexivity; eauto.
Qed.

Lemma Update_calls (e : Env) (m : model) (msg : Msg) :
  snd (Update e m msg)
  = if isQuit msg then [] else snd (dispatch e m msg).
Proof.
  unfold Update. destruct (isQuit msg); [reflexivity|].
  unfold bind. destruct (dispatch e m msg) as [[r|] t]; [|reflexivity].
  destruct r; cbn; apply app_nil_r.
Qed.

(** The hypothesis on the viewport is an invariant of the program: it
    holds of the initial model, and every step keeps it as long as the
    window sizes received leave at least one row and the help text has a
    number of lines that fits a Go [int]. *)
Lemma SetContent_in_content (s : string) (v : viewport.Model) :
  viewport_in_content v ->
  GoInt.len (viewport.Split (viewport.normalize s)) <= GoInt.max_int ->
  viewport_in_content (viewport.SetContent s v).
Proof.
  intros (Hh & [Hy0 Hy1] & Hsum & Hmax) Hs.
  pose proof (len_nonneg (viewport.Split (viewport.normalize s))) as Hnn.
  unfold viewport.SetContent, viewport.GotoBottom.
  cbn [viewport.lines viewport.set_lines viewport.YOffset viewport.Height].
  rewrite (sub_exact (GoInt.len _) 1) by int_range.
  rewrite (sub_exact (GoInt.len _ - 1) (viewport.Height v)) by int_range.
  destruct (Z.gtb_spec (viewport.YOffset v)
              (GoInt.len (viewport.Split (viewport.normalize s)) - 1));
    unfold viewport_in_content, GoInt.max_int in *; cbn; repeat split; lia.
Qed.

Lemma in_content_initial : viewport_in_content (Viewport createInitialModel).
Proof.
  unfold viewport_in_content, GoInt.len, GoInt.max_int. cbn.
  repeat split; lia.
Qed.

Lemma onKey_in_content (e : Env) (m : model) (c : KeyCase) (r : Flow)
  (calls : list FsCall) :
  viewport_in_content (Viewport m) ->
  GoInt.len (viewport.Split (viewport.normalize (components_Help e)))
  <= GoInt.max_int ->
  onKey e m c = (Some r, calls) ->
  viewport_in_content (Viewport (flow_model r)).
Proof.
  intros Hv Hhelp H.
  assert (Hnav : c = CaseUp \/ c = CaseDown ->
                 viewport_in_content (Viewport (flow_model r))).
  { intros Hud.
    destruct (onKey_nav_inv e m c r calls Hud H)
      as (_ & m1 & -> & [[_ ->] | (_ & cur & _ & E)]); [exact Hv|].
    destruct (fixCursor_frame (set_Cursor cur m)) as (_ & Hvp & _).
    destruct (fixViewport_in_content (fixCursor (set_Cursor cur m)))
      as (m2 & E2 & Hv2); [rewrite Hvp; exact Hv|].
    rewrite E in E2. injection E2 as <-. exact Hv2. }
  destruct (KeyCase_eq_dec c CaseHelp) as [-> | Hc].
  { unfold onKey, ret in H. injection H as <- <-. cbn.
    apply SetContent_in_content; assumption. }
  destruct c; try congruence; try (apply Hnav; auto; fail); clear Hnav;
    unfold onKey, onEnter, selected, relist in H; cbn in H;
    break_flow H; inversion H; subst; cbn; assumption.
Qed.

Lemma Update_in_content (e : Env) (m : model) (msg : Msg) (m' : model)
  (cmd : tea.Cmd) (calls : list FsCall) :
  viewport_in_content (Viewport m) ->
  (forall w h, msg = tea.WindowSizeMsg w h -> 1 <= h <= GoInt.max_int) ->
  GoInt.len (viewport.Split (viewport.normalize (components_Help e)))
  <= GoInt.max_int ->
  Update e m msg = (Some (m', cmd), calls) ->
  viewport_in_content (Viewport m').
Proof.
  intros Hv Hsize Hhelp H.
  destruct (Update_inv _ _ _ _ _ _ H)
    as [(_ & -> & _) | (_ & r & Hd & Hr)]; [exact Hv|].
  assert (Hflow : viewport_in_content (Viewport (flow_model r))).
  { destruct msg as [k | t | w h | files]; cbn [dispatch] in Hd.
    - apply (onKey_in_content e m _ r calls Hv Hhelp Hd).
    - unfold ret in Hd. injection Hd as <- <-. exact Hv.
    - unfold ret in Hd. injection Hd as <- <-.
      destruct (Hsize w h eq_refl) as [H1 H2].
      unfold viewport_in_content. cbn.
      rewrite sub_exact by int_range.
      unfold GoInt.len, GoInt.max_int in *. cbn. repeat split; lia.
    - unfold ret in Hd. injection Hd as <- <-. exact Hv. }
  destruct Hr as [-> | (m1 & -> & _ & ->)]; exact Hflow.
Qed.

(** Along a run from the initial model the viewport's offset stays
    inside its content. *)
Lemma run_in_content (events : list (Env * Msg)) :
  forall m m' : model,
    viewport_in_content (Viewport m) ->
    Forall (fun ev =>
              (forall w h, snd ev = tea.WindowSizeMsg w h ->
                           1 <= h <= GoInt.max_int) /\
              GoInt.len (viewport.Split
                           (viewport.normalize (components_Help (fst ev))))
              <= GoInt.max_int) events ->
    run m events = Some m' ->
    viewport_in_content (Viewport m').
Proof.
  induction events as [| [e msg] rest IH]; intros m m' Hv Hall Hrun.
  - cbn in Hrun. injection Hrun as <-. exact Hv.
  - inversion Hall as [| ? ? [Hsize Hhelp] Hrest]; subst.
    cbn [run] in Hrun.
    destruct (Update e m msg) as [[[m1 cmd]|] calls] eqn:E;
      [|discriminate].
    apply (IH m1 m'); [|exact Hrest | exact Hrun].
    apply (Update_in_content e m msg m1 cmd calls); assumption.
Qed.

Lemma index_some_range {A : Type} (l : list A) (i : Z) (a : A) :
  GoInt.index l i = Some a -> 0 <= i < GoInt.len l.
Proof.
  intros E.
  destruct (Z.le_gt_cases 0 i) as [H0 | H0];
    [destruct (Z.lt_ge_cases i (GoInt.len l)) as [H1 | H1]; [lia|]|];
    assert (Hn : GoInt.index l i = None) by (apply index_none; lia);
    congruence.
Qed.

(** The calls of one case of the key switch. *)
Lemma onKey_calls (e : Env) (m : model) (c : KeyCase) :
  snd (onKey e m c) = [] \/
  (exists d, snd (onKey e m c) = [CallGetDirectoryListing d]) \/
  (exists call, filesystem.mutates call = true /\
                snd (onKey e m c) = [call; CallGetDirectoryListing "./"] /\
                c = CaseEnter /\ flags_set m <> 0%nat /\
                cursor_in_range m).
Proof.
  assert (Hnav : c = CaseUp \/ c = CaseDown -> snd (onKey e m c) = []).
  { intros Hc.
    assert (Hcur : exists cur,
               (c = CaseUp /\ cur = GoInt.sub (Cursor m) 1) \/
               (c = CaseDown /\ cur = GoInt.add (Cursor m) 1))
      by (destruct Hc; eauto).
    destruct Hcur as [cur Hcur]. rewrite (onKey_nav e m c cur Hcur).
    destruct (negb (focused m)); [destruct (fixViewport false _)|];
      reflexivity. }
  destruct c; try (left; apply Hnav; auto; fail); clear Hnav; unfold onKey;
    try (destruct (negb (focused m)); cbn; eauto; fail);
    try (left; reflexivity).
  unfold onEnter, selected, relist.
  destruct (GoInt.index (Files m) (Cursor m)) as [f|] eqn:Hi;
    [|left; reflexivity].
  pose proof (index_some_range _ _ _ Hi) as Hr. cbn.
  assert (Hflag : Rename m = true \/ Move m = true \/ Delete m = true ->
                  flags_set m <> 0%nat).
  { unfold flags_set.
    destruct (Move m), (Rename m), (Delete m); cbn; intros [H|[H|H]];
      try discriminate; lia. }
  repeat match goal with
         | |- context [if ?b then _ else _] => destruct b eqn:?; cbn
         end;
    first [ left; reflexivity
          | right; left; eexists; reflexivity
          | right; right; eexists; repeat split;
            try reflexivity; try apply Hr; apply Hflag; auto ].
Qed.

(** X3. The filesystem calls of one [Update] step are none, or one
    directory listing, or one mutating call directly followed by the
    listing of ["./"].  A mutating call is only made by the commit keys
    (enter, space), with a prompt flag set and the cursor on an entry; a
    model without prompt flag never changes the disk. *)
Theorem X3_filesystem_calls_of_a_step (e : Env) (m : model) (msg : Msg) :
  (snd (Update e m msg) = [] \/
   (exists d, snd (Update e m msg) = [CallGetDirectoryListing d]) \/
   (exists call, filesystem.mutates call = true /\
                 snd (Update e m msg)
                 = [call; CallGetDirectoryListing "./"])) /\
  (Exists (fun c => filesystem.mutates c = true) (snd (Update e m msg)) ->
   exists k, msg = tea.KeyMsg k /\
             keyCase (tea.String k) = CaseEnter /\
             flags_set m <> 0%nat /\ cursor_in_range m).
Proof.
  rewrite Update_calls.
  destruct (isQuit msg).
  { split; [left; reflexivity | intros H; inversion H]. }
  destruct msg as [k | t | w h | files]; cbn [dispatch];
    try (split; [left; reflexivity | intros H; inversion H]).
  destruct (onKey_calls e m (keyCase (tea.String k)))
    as [H | [(d & H) | (call & Hm & H & Hk & Hfl & Hr)]]; rewrite H.
  - split; [left; reflexivity | intros H'; inversion H'].
  - split; [right; left; eauto|].
    intros H'. inversion H' as [? ? Hx | ? ? Hx]; subst;
      [discriminate | inversion Hx].
  - split; [right; right; eauto|]. intros _. eauto.
Qed.

(** X4. The quit command is returned for the keys ["q"] and ["ctrl+c"]
    and for nothing else; it comes with the model as it was and without
    any filesystem call, in every state. *)
Theorem X4_quit_keys (e : Env) (m : model) (msg : Msg) :
  (forall k, msg = tea.KeyMsg k ->
             tea.String k = "q" \/ tea.String k = "ctrl+c" ->
             Update e m msg = (Some (m, tea.Quit), [])) /\
  (forall m' calls,
     Update e m msg = (Some (m', tea.Quit), calls) ->
     exists k, msg = tea.KeyMsg k /\
               (tea.String k = "q" \/ tea.String k = "ctrl+c")).
Proof.
  split.
  - intros k -> Hk. unfold Update, isQuit.
    destruct Hk as [-> | ->]; reflexivity.
  - intros m' calls H.
    destruct (Update_inv _ _ _ _ _ _ H)
      as [(Hq & _) | (Hq & r & Hd & [Hr | (m1 & Hr & Hc & _)])].
    + destruct msg as [k | | |]; try discriminate. exists k.
      split; [reflexivity|]. unfold isQuit in Hq.
      destruct (String.eqb_spec (tea.String k) "q"); auto.
      destruct (String.eqb_spec (tea.String k) "ctrl+c"); auto.
      discriminate.
    + exfalso. subst r.
      destruct msg as [k | t | w h | files]; cbn in Hd;
        try discriminate.
      assert (Hk : keyCase (tea.String k) <> CaseQuit).
      { intros E. apply isQuit_keyCase in E. congruence. }
      assert (Hnav : keyCase (tea.String k) = CaseUp \/
                     keyCase (tea.String k) = CaseDown -> False).
      { intros Hud.
        destruct (onKey_nav_inv _ _ _ _ _ Hud Hd) as (_ & m1 & E & _).
        discriminate. }
      destruct (keyCase (tea.String k)); try congruence;
        try (apply Hnav; auto; fail); clear Hnav;
        unfold onKey, onEnter, selected, relist in Hd; cbn in Hd;
        break_flow Hd; discriminate.
    + discriminate.
Qed.

(** After the switch, a text input without focus is handed the message
    and stays as it is. *)
Lemma Update_next_blurred (e : Env) (m m1 : model) (k : tea.Key)
  (calls : list FsCall) :
  keyCase (tea.String k) <> CaseQuit ->
  onKey e m (keyCase (tea.String k)) = (Some (Next m1), calls) ->
  focused m1 = false ->
  Update e m (tea.KeyMsg k) = (Some (m1, tea.Batch), calls).
Proof.
  intros Hq Hon Hf. rewrite Update_key by assumption. rewrite Hon.
  cbn [bind ret]. rewrite textinput_Update_blurred by exact Hf.
  rewrite set_TextInput_same, app_nil_r. reflexivity.
Qed.

(** X5. Changing the directory.  On a browsing model, enter (or space)
    on a directory lists the directory named by the selected entry and
    puts the cursor on 0; the viewport, and with it the scroll offset,
    stays as it was.  Enter on a regular file, with no prompt flag set,
    changes nothing and calls nothing.  The back keys (["h"],
    backspace) list [".."] and put the cursor on 0, also on an empty
    listing. *)
Theorem X5_directory_change (e : Env) (m : model) (k : tea.Key) :
  focused m = false ->
  (keyCase (tea.String k) = CaseEnter ->
   forall f, GoInt.index (Files m) (Cursor m) = Some f ->
     (IsDir f = true ->
      Update e m (tea.KeyMsg k)
      = (Some (set_Cursor 0 (set_Files (listing e (Name f)) m), tea.Batch),
         [CallGetDirectoryListing (Name f)])) /\
     (IsDir f = false -> flags_set m = 0%nat ->
      Update e m (tea.KeyMsg k) = (Some (m, tea.Nil), []))) /\
  (keyCase (tea.String k) = CaseBack ->
   Update e m (tea.KeyMsg k)
   = (Some (set_Files (listing e "..") (set_Cursor 0 m), tea.Batch),
      [CallGetDirectoryListing ".."])).
Proof.
  intros Hf. split.
  - intros Hk f Hi. split.
    + intros Hd. apply Update_next_blurred; [congruence | | exact Hf].
      rewrite Hk. unfold onKey, onEnter, selected. rewrite Hi. cbn.
      rewrite Hd, Hf. reflexivity.
    + intros Hd Hfl. rewrite Update_key by congruence. rewrite Hk.
      unfold onKey, onEnter, selected. rewrite Hi. cbn. rewrite Hd.
      unfold flags_set in Hfl.
      destruct (Move m), (Rename m), (Delete m); cbn in Hfl;
        try discriminate. reflexivity.
  - intros Hk. apply Update_next_blurred; [congruence | | exact Hf].
    rewrite Hk. unfold onKey. rewrite Hf. reflexivity.
Qed.

Lemma X5_directory_change_witness :
  focused (set_Cursor 1 browse5) = false /\
  GoInt.index (Files (set_Cursor 1 browse5)) 1 = Some (entry "b" true) /\
  Update env5 (set_Cursor 1 browse5) keyEnter
  = (Some (set_Cursor 0 (set_Files (listing env5 "b") (set_Cursor 1 browse5)),
           tea.Batch), [CallGetDirectoryListing "b"]) /\
  Update env5 browse5 (key " ") = (Some (browse5, tea.Nil), []) /\
  Update env5 createInitialModel (key "h")
  = (Some (set_Files (listing env5 "..") (set_Cursor 0 createInitialModel),
           tea.Batch), [CallGetDirectoryListing ".."]).
Proof.
  split; [reflexivity|]. split; [reflexivity|]. split; [|split].
  - destruct (X5_directory_change env5 (set_Cursor 1 browse5)
                (tea.special tea.KeyEnter) eq_refl) as [He _].
    destruct (He eq_refl (entry "b" true) eq_refl) as [Hd _].
    exact (Hd eq_refl).
  - destruct (X5_directory_change env5 browse5 (tea.rune " ") eq_refl)
      as [He _].
    destruct (He eq_refl (entry "a.txt" false) eq_refl) as [_ Hn].
    exact (Hn eq_refl eq_refl).
  - destruct (X5_directory_change env5 createInitialModel (tea.rune "h")
                eq_refl) as [_ Hb].
    exact (Hb eq_refl).
Defined.

(** What a commit does to the disk, by the open prompt and the kind of
    the selected entry [f]. *)
Lemma commit_calls_eq (e : Env) (m : model) (k : tea.Key) (f : FileInfo) :
  focused m = true ->
  GoInt.index (Files m) (Cursor m) = Some f ->
  keyCase (tea.String k) = CaseEnter ->
  exists m',
    Update e m (tea.KeyMsg k)
    = (Some (m', if (flags_set m =? 0)%nat then tea.Nil else tea.Batch),
       match mode m with
       | RenamePrompt =>
           [CallRenameDirOrFile (Name f) (buffer m);
            CallGetDirectoryListing "./"]
       | MovePrompt =>
           [if IsDir f then CallMoveDir (Name f) (buffer m)
            else CallCopyFile (Name f) (buffer m) true;
            CallGetDirectoryListing "./"]
       | DeleteConfirm =>
           if (buffer m =? "y")%string
           then [if IsDir f then CallDeleteDirectory (Name f)
                 else CallDeleteFile (Name f);
                 CallGetDirectoryListing "./"]
           else [CallGetDirectoryListing "./"]
       | HelpScreen | Browse => []
       end) /\
    Cursor m' = Cursor m /\
    (flags_set m <> 0%nat -> Files m' = listing e "./").
Proof.
  intros Hf Hi Hk. rewrite Update_key by congruence. rewrite Hk.
  unfold onKey, onEnter, selected, relist. rewrite Hi.
  destruct m as [fs cur vp ti vr sw sh mv rn dl hp];
    destruct ti as [pr ph cl wd v ps fc];
    unfold flags_set, focused, buffer, mode, textinput.Focused,
      textinput.Value in *;
    cbn in Hf; subst fc; cbn;
    destruct rn, mv, dl; cbn;
    destruct (IsDir f); cbn;
    try (destruct (String.eqb v "y"); cbn);
    destruct hp; eexists; (split; [reflexivity|]);
    split; try reflexivity; intros; try reflexivity; congruence.
Qed.

(** X6. A commit (enter or space in an open prompt, cursor on an entry
    [f]) acts on the selected entry and on nothing else: a rename prompt
    calls [RenameDirOrFile] with the entry's name and the buffer; a move
    prompt calls [MoveDir] for a directory and [CopyFile] with the
    delete-source flag for a file; a delete prompt with buffer ["y"]
    calls [DeleteDirectory] for a directory and [DeleteFile] for a file.
    Each is followed by the listing of ["./"], which becomes the new
    listing, and the cursor is left where it was. *)
Theorem X6_commit_acts_on_selected_entry
  (e : Env) (m : model) (k : tea.Key) (f : FileInfo) :
  focused m = true ->
  GoInt.index (Files m) (Cursor m) = Some f ->
  keyCase (tea.String k) = CaseEnter ->
  flags_set m <> 0%nat ->
  exists m',
    Update e m (tea.KeyMsg k)
    = (Some (m', tea.Batch),
       match mode m with
       | RenamePrompt =>
           [CallRenameDirOrFile (Name f) (buffer m);
            CallGetDirectoryListing "./"]
       | MovePrompt =>
           [if IsDir f then CallMoveDir (Name f) (buffer m)
            else CallCopyFile (Name f) (buffer m) true;
            CallGetDirectoryListing "./"]
       | DeleteConfirm =>
           if (buffer m =? "y")%string
           then [if IsDir f then CallDeleteDirectory (Name f)
                 else CallDeleteFile (Name f);
                 CallGetDirectoryListing "./"]
           else [CallGetDirectoryListing "./"]
       | HelpScreen | Browse => []
       end) /\
    Cursor m' = Cursor m /\
    Files m' = listing e "./".
Proof.
  intros Hf Hi Hk Hfl.
  destruct (commit_calls_eq e m k f Hf Hi Hk) as (m' & Hu & Hc & Hfs).
  exists m'. destruct (Nat.eqb_spec (flags_set m) 0); [contradiction|].
  auto.
Qed.

Lemma X6_commit_acts_on_selected_entry_witness :
  (exists m',
     Update env5 (set_Cursor 1 (prompt5 set_Delete "y")) keyEnter
     = (Some (m', tea.Batch),
        [CallDeleteDirectory "b"; CallGetDirectoryListing "./"]) /\
     Cursor m' = 1 /\ Files m' = files5) /\
  (exists m',
     Update env5 (prompt5 set_Move "/tmp") keyEnter
     = (Some (m', tea.Batch),
        [CallCopyFile "a.txt" "/tmp" true; CallGetDirectoryListing "./"]) /\
     Cursor m' = 0 /\ Files m' = files5).
Proof.
  split.
  - apply (X6_commit_acts_on_selected_entry env5
             (set_Cursor 1 (prompt5 set_Delete "y"))
             (tea.special tea.KeyEnter) (entry "b" true));
      try reflexivity; discriminate.
  - apply (X6_commit_acts_on_selected_entry env5 (prompt5 set_Move "/tmp")
             (tea.special tea.KeyEnter) (entry "a.txt" false));
      try reflexivity; discriminate.
Defined.

(** With the focus on the text input, no case of the key switch moves
    the cursor, and only the commit case replaces the listing. *)
Lemma onKey_focused_frame (e : Env) (m : model) (c : KeyCase) (r : Flow)
  (calls : list FsCall) :
  focused m = true ->
  onKey e m c = (Some r, calls) ->
  Cursor (flow_model r) = Cursor m /\
  (c <> CaseEnter -> Files (flow_model r) = Files m).
Proof.
  intros Hf H.
  destruct c; unfold onKey in H; rewrite ?Hf in H; cbn in H;
    try (inversion H; subst; cbn; split; reflexivity).
  unfold onEnter, selected, relist in H. rewrite Hf in H.
  destruct (GoInt.index (Files m) (Cursor m)); cbn in H; [|discriminate].
  rewrite Bool.andb_false_r in H.
  break_flow H; inversion H; subst; cbn; split; congruence.
Qed.

(** X7. An open prompt freezes the selection: while the text input has
    the focus, no message of any kind changes the cursor, and the listing
    is only replaced by a listing result ([fileStatus]) or by a commit
    key. *)
Theorem X7_open_prompt_freezes_cursor
  (e : Env) (m : model) (msg : Msg) (m' : model) (cmd : tea.Cmd)
  (calls : list FsCall) :
  focused m = true ->
  Update e m msg = (Some (m', cmd), calls) ->
  Cursor m' = Cursor m /\
  (Files m' = Files m \/
   (exists files, msg = tea.AppMsg files) \/
   (exists k, msg = tea.KeyMsg k /\ keyCase (tea.String k) = CaseEnter)).
Proof.
  intros Hf H.
  destruct (Update_inv _ _ _ _ _ _ H)
    as [(_ & -> & _) | (_ & r & Hd & Hr)]; [auto|].
  assert (Hm' : Cursor m' = Cursor (flow_model r) /\
                Files m' = Files (flow_model r)).
  { destruct Hr as [-> | (m1 & -> & _ & ->)]; cbn; auto. }
  destruct Hm' as [-> ->].
  destruct msg as [k | t | w h | files]; cbn in Hd.
  - destruct (onKey_focused_frame e m _ r calls Hf Hd) as [Hc Hfs].
    split; [assumption|].
    destruct (KeyCase_eq_dec (keyCase (tea.String k)) CaseEnter); eauto.
  - inversion Hd; subst. cbn. auto.
  - inversion Hd; subst. cbn. auto.
  - inversion Hd; subst. cbn. eauto.
Qed.

Lemma X7_open_prompt_freezes_cursor_witness :
  focused (prompt5 set_Rename "x") = true /\
  forall m' cmd calls,
    Update env5 (prompt5 set_Rename "x") (key "j") = (Some (m', cmd), calls) ->
    Cursor m' = Cursor (prompt5 set_Rename "x") /\
    (Files m' = Files (prompt5 set_Rename "x") \/
     (exists files, key "j" = tea.AppMsg files) \/
     (exists k, key "j" = tea.KeyMsg k /\
                keyCase (tea.String k) = CaseEnter)).
Proof.
  split; [reflexivity|]. intros m' cmd calls H.
  apply (X7_open_prompt_freezes_cursor env5 (prompt5 set_Rename "x")
           (key "j") m' cmd calls eq_refl H).
Defined.



(* ================================================================== *)
(** ** Further properties of [fixCursor] and [fixViewport] *)

(** X9. [fixCursor] repairs and otherwise does nothing: a cursor that is
    on an entry is left alone, on a non-empty listing the result is
    always on an entry, a second call changes nothing, and no other
    field of the model is touched. *)
Theorem X9_fixCursor_repairs (m : model) :
  GoInt.len (Files m) <= GoInt.max_int ->
  (cursor_in_range m -> fixCursor m = m) /\
  (Files m <> [] -> cursor_in_range (fixCursor m)) /\
  fixCursor (fixCursor m) = fixCursor m /\
  fixCursor m = set_Cursor (Cursor (fixCursor m)) m.
Proof.
  intros Hlen. pose proof (len_nonneg (Files m)) as Hnn.
  split; [|split; [|split]].
  - intros [H0 H1]. unfold fixCursor. rewrite (len_pred _ Hlen).
    destruct (Z.gtb_spec (Cursor m) (GoInt.len (Files m) - 1)); [lia|].
    destruct (Z.ltb_spec (Cursor m) 0); [lia | reflexivity].
  - intros Hne. apply fixCursor_in_range; assumption.
  - unfold fixCursor. rewrite (len_pred _ Hlen).
    destruct (Z.gtb_spec (Cursor m) (GoInt.len (Files m) - 1)); cbn.
    + rewrite (len_pred _ Hlen).
      destruct (Z.gtb_spec 0 (GoInt.len (Files m) - 1)); [reflexivity|].
      reflexivity.
    + destruct (Z.ltb_spec (Cursor m) 0); cbn.
      * rewrite (len_pred _ Hlen).
        destruct (Z.gtb_spec (GoInt.len (Files m) - 1)
                    (GoInt.len (Files m) - 1)); [lia|].
        destruct (Z.ltb_spec (GoInt.len (Files m) - 1) 0); reflexivity.
      * rewrite ?(len_pred _ Hlen).
        destruct (Z.gtb_spec (Cursor m) (GoInt.len (Files m) - 1)); [lia|].
        destruct (Z.ltb_spec (Cursor m) 0); [lia | reflexivity].
  - unfold fixCursor.
    destruct (Cursor m >? GoInt.sub (GoInt.len (Files m)) 1);
      [reflexivity|].
    destruct (Cursor m <? 0); [reflexivity|].
    destruct m; reflexivity.
Qed.

Lemma X9_fixCursor_repairs_witness :
  cursor_in_range (fixCursor (set_Cursor (-7) browse5)) /\
  fixCursor scrolled5 = scrolled5 /\
  fixCursor (fixCursor createInitialModel) = fixCursor createInitialModel.
Proof.
  assert (Hl : forall m, Files m = files5 ->
                         GoInt.len (Files m) <= GoInt.max_int).
  { intros m ->. vm_compute. discriminate. }
  destruct (X9_fixCursor_repairs (set_Cursor (-7) browse5)
              (Hl (set_Cursor (-7) browse5) eq_refl))
    as (_ & Hrepair & _).
  destruct (X9_fixCursor_repairs scrolled5 (Hl scrolled5 eq_refl))
    as (Hkeep & _).
  destruct (X9_fixCursor_repairs createInitialModel) as (_ & _ & Hidem & _).
  { vm_compute. discriminate. }
  split; [apply Hrepair; discriminate|].
  split; [apply Hkeep; unfold cursor_in_range, GoInt.len; simpl; lia|].
  exact Hidem.
Defined.

(** X10. [fixViewport(true)] moves the cursor into the visible band: for
    a window of at least one row it returns, the result satisfies
    [offset <= cursor <= offset+height-1], a cursor above the band is put
    on its first row and one below on its last row, a cursor inside is
    left alone, and the viewport is never changed. *)
Theorem X10_fixViewport_moves_cursor_into_band (m : model) :
  1 <= viewport.Height (Viewport m) ->
  GoInt.in_range (viewport.YOffset (Viewport m)) ->
  viewport.Height (Viewport m) + viewport.YOffset (Viewport m)
  <= GoInt.max_int ->
  exists m',
    fixViewport true m = Some m' /\
    cursor_in_band m' /\
    Viewport m' = Viewport m /\
    Files m' = Files m /\
    (cursor_in_band m -> m' = m) /\
    (Cursor m < viewport.YOffset (Viewport m) ->
     Cursor m' = viewport.YOffset (Viewport m)) /\
    (Cursor m > viewport.YOffset (Viewport m)
                + viewport.Height (Viewport m) - 1 ->
     Cursor m'
     = viewport.YOffset (Viewport m) + viewport.Height (Viewport m) - 1).
Proof.
  intros Hh Hy Hsum.
  assert (Hb : GoInt.sub (GoInt.add (viewport.Height (Viewport m))
                            (viewport.YOffset (Viewport m))) 1
               = viewport.YOffset (Viewport m)
                 + viewport.Height (Viewport m) - 1).
  { rewrite add_exact by int_range. rewrite sub_exact by int_range. lia. }
  unfold cursor_in_band, fixViewport. rewrite Hb.
  destruct (Z.ltb_spec (Cursor m) (viewport.YOffset (Viewport m))).
  - eexists. split; [reflexivity|]. cbn.
    repeat split; try reflexivity; try lia.
  - destruct (Z.gtb_spec (Cursor m)
                (viewport.YOffset (Viewport m)
                 + viewport.Height (Viewport m) - 1)).
    + eexists. split; [reflexivity|]. cbn.
      repeat split; try reflexivity; try lia.
    + eexists. split; [reflexivity|].
      repeat split; try reflexivity; try lia.
Qed.

Lemma X10_fixViewport_moves_cursor_into_band_witness :
  ~ cursor_in_band (set_Cursor 4 browse5) /\
  exists m', fixViewport true (set_Cursor 4 browse5) = Some m' /\
             cursor_in_band m' /\ Cursor m' = 1.
Proof.
  assert (H1 : 1 <= viewport.Height (Viewport (set_Cursor 4 browse5)))
    by (simpl; lia).
  assert (H2 : GoInt.in_range
                 (viewport.YOffset (Viewport (set_Cursor 4 browse5))))
    by (vm_compute; split; discriminate).
  assert (H3 : viewport.Height (Viewport (set_Cursor 4 browse5))
               + viewport.YOffset (Viewport (set_Cursor 4 browse5))
               <= GoInt.max_int)
    by (vm_compute; discriminate).
  destruct (X10_fixViewport_moves_cursor_into_band
              (set_Cursor 4 browse5) H1 H2 H3)
    as (m' & Hfix & Hband & _ & _ & _ & _ & Hlow).
  split; [unfold cursor_in_band; simpl; lia|].
  exists m'. split; [exact Hfix|]. split; [exact Hband|].
  rewrite Hlow; [reflexivity | simpl; lia].
Defined.

Lemma fixCursor_keeps (m : model) :
  GoInt.len (Files m) <= GoInt.max_int ->
  cursor_in_range m -> fixCursor m = m.
Proof.
  intros Hlen [H0 H1]. unfold fixCursor. rewrite (len_pred _ Hlen).
  destruct (Z.gtb_spec (Cursor m) (GoInt.len (Files m) - 1)); [lia|].
  destruct (Z.ltb_spec (Cursor m) 0); [lia | reflexivity].
Qed.

Lemma fixViewport_scroll_eq (m : model) :
  1 <= viewport.Height (Viewport m) ->
  0 <= viewport.YOffset (Viewport m) ->
  viewport.YOffset (Viewport m) + viewport.Height (Viewport m)
  <= GoInt.max_int ->
  fixViewport false m
  = if Cursor m <? viewport.YOffset (Viewport m)
    then match viewport.LineUp 1 (Viewport m) with
         | Some (v, _) => Some (set_Viewport v m)
         | None => None
         end
    else if Cursor m >? viewport.YOffset (Viewport m)
                        + viewport.Height (Viewport m) - 1
         then match viewport.LineDown 1 (Viewport m) with
              | Some (v, _) => Some (set_Viewport v m)
              | None => None
              end
         else Some m.
Proof.
  intros Hh Hy Hsum. unfold fixViewport.
  rewrite add_exact by int_range. rewrite sub_exact by int_range.
  replace (viewport.Height (Viewport m) + viewport.YOffset (Viewport m) - 1)
    with (viewport.YOffset (Viewport m) + viewport.Height (Viewport m) - 1)
    by lia.
  reflexivity.
Qed.

(** X11. A move that does not wrap keeps the cursor visible.  On a
    browsing model whose cursor is on an entry and inside the band, with
    a window of at least one row and the viewport's offset inside its
    content: an up key away from the first entry moves the cursor up by
    one and the result is in the band; a down key away from the last
    entry does the same downwards provided the viewport holds a row for
    every entry and the trailing line (more lines than entries). *)
Theorem X11_plain_move_keeps_band (e : Env) (m : model) (k : tea.Key) :
  focused m = false ->
  cursor_in_range m ->
  cursor_in_band m ->
  1 <= viewport.Height (Viewport m) ->
  viewport_in_content (Viewport m) ->
  GoInt.len (Files m) <= GoInt.max_int ->
  (keyCase (tea.String k) = CaseUp -> 0 < Cursor m ->
   exists m', Update e m (tea.KeyMsg k) = (Some (m', tea.Batch), []) /\
              Cursor m' = Cursor m - 1 /\ cursor_in_band m') /\
  (keyCase (tea.String k) = CaseDown ->
   Cursor m + 1 < GoInt.len (Files m) ->
   GoInt.len (Files m) < GoInt.len (viewport.lines (Viewport m)) ->
   exists m', Update e m (tea.KeyMsg k) = (Some (m', tea.Batch), []) /\
              Cursor m' = Cursor m + 1 /\ cursor_in_band m').
Proof.
  intros Hf [Hr0 Hr1] [Hb0 Hb1] Hh (_ & [Hy Hy1] & Hsum & Hmax) Hlen.
  split.
  - intros Hk Hpos. rewrite (Update_up e m k Hf Hk).
    rewrite sub_exact by int_range.
    rewrite fixCursor_keeps
      by (try assumption; unfold cursor_in_range; cbn; lia).
    rewrite fixViewport_scroll_eq by (cbn; assumption).
    cbn [Cursor Viewport set_Cursor].
    destruct (Z.ltb_spec (Cursor m - 1) (viewport.YOffset (Viewport m))).
    + destruct (LineUp_one (Viewport m)) as [shown ->]; try lia.
      eexists. split; [reflexivity|].
      unfold cursor_in_band. cbn. lia.
    + destruct (Z.gtb_spec (Cursor m - 1)
                  (viewport.YOffset (Viewport m)
                   + viewport.Height (Viewport m) - 1)); [lia|].
      eexists. split; [reflexivity|].
      unfold cursor_in_band. cbn. lia.
  - intros Hk Hlast Hrows. rewrite (Update_down e m k Hf Hk).
    rewrite add_exact by int_range.
    rewrite fixCursor_keeps
      by (try assumption; unfold cursor_in_range; cbn; lia).
    rewrite fixViewport_scroll_eq by (cbn; assumption).
    cbn [Cursor Viewport set_Cursor].
    destruct (Z.ltb_spec (Cursor m + 1) (viewport.YOffset (Viewport m)));
      [lia|].
    destruct (Z.gtb_spec (Cursor m + 1)
                (viewport.YOffset (Viewport m)
                 + viewport.Height (Viewport m) - 1)).
    + destruct (LineDown_one (Viewport m)) as [shown ->]; try lia.
      eexists. split; [reflexivity|].
      unfold cursor_in_band. cbn. lia.
    + eexists. split; [reflexivity|].
      unfold cursor_in_band. cbn. lia.
Qed.

Lemma X11_plain_move_keeps_band_witness :
  (exists m', Update env5 (set_Cursor 1 browse5) keyDown
              = (Some (m', tea.Batch), []) /\
              Cursor m' = 2 /\ cursor_in_band m') /\
  (exists m', Update env5 scrolled5 keyUp = (Some (m', tea.Batch), []) /\
              Cursor m' = 3 /\ cursor_in_band m').
Proof.
  split.
  - destruct (X11_plain_move_keeps_band env5 (set_Cursor 1 browse5)
                (tea.special tea.KeyDown)) as [_ Hd];
      try reflexivity;
      try (unfold cursor_in_range, cursor_in_band, GoInt.len; simpl; lia);
      try (vm_compute; discriminate);
      try apply in_content_browse5.
    apply Hd; try reflexivity; vm_compute; discriminate.
  - destruct (X11_plain_move_keeps_band env5 scrolled5
                (tea.special tea.KeyUp)) as [Hu _];
      try reflexivity;
      try (unfold cursor_in_range, cursor_in_band, GoInt.len; simpl; lia);
      try (vm_compute; discriminate);
      try apply in_content_browse5.
    apply Hu; reflexivity.
Defined.

(* ================================================================== *)
(** ** Package [ascii_image] *)

Lemma pos_range (y : Byte.byte) : 0 <= ascii_image.pos y <= 16.
Proof.
  unfold ascii_image.pos.
  pose proof (Byte.to_N_bounded y) as Hb.
  assert (H : 0 <= Z.of_N (Byte.to_N y) <= 255) by lia.
  rewrite Z.mod_small by lia.
  split.
  - apply Z.div_pos; lia.
  - apply Z.div_le_upper_bound; lia.
Qed.

Lemma table_entry (p : Z) :
  0 <= p <= 16 ->
  exists c, GoInt.index ascii_image.table p = Some c /\
            In c (firstn 17 ascii_image.table).
Proof.
  intros H.
  assert (Hp : p = 0 \/ p = 1 \/ p = 2 \/ p = 3 \/ p = 4 \/ p = 5 \/
               p = 6 \/ p = 7 \/ p = 8 \/ p = 9 \/ p = 10 \/ p = 11 \/
               p = 12 \/ p = 13 \/ p = 14 \/ p = 15 \/ p = 16) by lia.
  repeat (destruct Hp as [-> | Hp];
          [eexists; split; [reflexivity | simpl; tauto]|]).
  subst p. eexists. split; [reflexivity | simpl; tauto].
Qed.

Lemma string_app_assoc (a b c : string) :
  ((a ++ b) ++ c)%string = (a ++ b ++ c)%string.
Proof.
  induction a as [| x a IH]; cbn; [reflexivity | rewrite IH; reflexivity].
Qed.

Section ImageFacts.

Variable Image : Type.
Variable gray : Image -> Z -> Z -> Byte.byte.
Variable Resize : Z -> Z -> Image -> option Image.

Lemma writeRow_shape (im : Image) (i : Z) (js : list Z) :
  exists r,
    ascii_image.writeRow Image gray (Some im) i js = Some (r ++ nl) /\
    String.length r = List.length js /\
    Forall (fun c => In c (firstn 17 ascii_image.table))
           (list_ascii_of_string r).
Proof.
  induction js as [| j rest IH].
  - exists EmptyString. repeat split. constructor.
  - destruct IH as (r & Hr & Hlen & Hall).
    destruct (table_entry _ (pos_range (gray im j i))) as (c & Hc & Hin).
    exists (String c r). cbn [ascii_image.writeRow].
    unfold ascii_image.cell. rewrite Hc, Hr. repeat split.
    + cbn. rewrite Hlen. reflexivity.
    + constructor; assumption.
Qed.

Lemma writeRows_shape (im : Image) (rows js : list Z) :
  exists rs,
    ascii_image.writeRows Image gray (Some im) rows js = Some (unlines rs) /\
    List.length rs = List.length rows /\
    Forall (fun r =>
              String.length r = List.length js /\
              Forall (fun c => In c (firstn 17 ascii_image.table))
                     (list_ascii_of_string r)) rs.
Proof.
  induction rows as [| i rest IH].
  - exists []. repeat split. constructor.
  - destruct IH as (rs & Hrs & Hlen & Hall).
    destruct (writeRow_shape im i js) as (r & Hr & Hl & Hc).
    exists (r :: rs). cbn [ascii_image.writeRows]. rewrite Hr, Hrs.
    repeat split.
    + cbn [unlines fold_right]. rewrite string_app_assoc. reflexivity.
    + cbn. rewrite Hlen. reflexivity.
    + constructor; auto.
Qed.

Lemma upto_length (n : Z) :
  Z.of_nat (List.length (ascii_image.upto n)) = Z.max 0 n.
Proof.
  unfold ascii_image.upto. rewrite length_map, length_seq. lia.
Qed.

Lemma picture_of_rows (im : Image) (h w : Z) :
  exists s,
    ascii_image.writeRows Image gray (Some im) (ascii_image.upto h)
      (ascii_image.upto w) = Some s /\
    is_picture h w s.
Proof.
  destruct (writeRows_shape im (ascii_image.upto h) (ascii_image.upto w))
    as (rs & Hrs & Hlen & Hall).
  exists (unlines rs). split; [exact Hrs|].
  exists rs. split; [reflexivity|]. split.
  - rewrite Hlen. apply upto_length.
  - eapply Forall_impl; [|exact Hall]. cbn. intros r [Hl Hc].
    split; [|exact Hc]. rewrite Hl. apply upto_length.
Qed.

(** X12. [convertToAscii] never leaves the table and always draws a full
    picture: for a model that holds an image it returns without a panic,
    whatever the image, and the content is [Height] rows (none for a
    height below 1) of [Width] characters each, every row closed by a
    newline and every character taken from the first 17 of the 18 table
    entries.  Image and size are not changed. *)
Theorem X12_convertToAscii_draws_full_picture
  (m : ascii_image.Model Image) (im : Image) :
  ascii_image.Image_ m = Some im ->
  exists m',
    ascii_image.convertToAscii Image gray m = Some m' /\
    is_picture (ascii_image.Height m) (ascii_image.Width m)
               (ascii_image.View m') /\
    ascii_image.Image_ m' = Some im /\
    ascii_image.Height m' = ascii_image.Height m /\
    ascii_image.Width m' = ascii_image.Width m.
Proof.
  intros Him. unfold ascii_image.convertToAscii. rewrite Him.
  destruct (picture_of_rows im (ascii_image.Height m) (ascii_image.Width m))
    as (s & Hs & Hpic).
  rewrite Hs. eexists. split; [reflexivity|]. cbn. auto.
Qed.

(** X13. Resizing and loading re-draw to the size of the model.
    [SetSize] on a model without image only records the new size and
    keeps the content.  With an image it scales the image to the new
    size: if the scaling fails, [SetSize] panics; if it returns, the
    model holds the scaled image and the view is a picture of [height]
    rows and [width] columns.  [SetContent] scales the new image to the
    size of the model in the same way: it panics if the scaling fails,
    and otherwise the view is a picture of the size of the model. *)
Theorem X13_view_has_the_size_of_the_model
  (m : ascii_image.Model Image) (w h : Z) (img : Image) :
  (ascii_image.Image_ m = None ->
   ascii_image.SetSize Image gray Resize w h m
   = Some (ascii_image.mkModel None (ascii_image.Content m) h w)) /\
  (forall im, ascii_image.Image_ m = Some im ->
     match Resize (ascii_image.uint w) (ascii_image.uint h) im with
     | Some scaled =>
         exists m',
           ascii_image.SetSize Image gray Resize w h m = Some m' /\
           ascii_image.Width m' = w /\ ascii_image.Height m' = h /\
           ascii_image.Image_ m' = Some scaled /\
           is_picture h w (ascii_image.View m')
     | None => ascii_image.SetSize Image gray Resize w h m = None
     end) /\
  match Resize (ascii_image.uint (ascii_image.Width m))
          (ascii_image.uint (ascii_image.Height m)) img with
  | Some scaled =>
      exists m',
        ascii_image.SetContent Image gray Resize img m = Some m' /\
        ascii_image.Width m' = ascii_image.Width m /\
        ascii_image.Height m' = ascii_image.Height m /\
        ascii_image.Image_ m' = Some scaled /\
        is_picture (ascii_image.Height m) (ascii_image.Width m)
                   (ascii_image.View m')
  | None => ascii_image.SetContent Image gray Resize img m = None
  end.
Proof.
  split; [|split].
  - intros Him. unfold ascii_image.SetSize. cbn. rewrite Him. reflexivity.
  - intros im Him.
    unfold ascii_image.SetSize, ascii_image.scaleImage,
      ascii_image.convertToAscii. cbn. rewrite Him.
    destruct (Resize (ascii_image.uint w) (ascii_image.uint h) im)
      as [scaled|]; [|reflexivity]. cbn.
    destruct (picture_of_rows scaled h w) as (s & Hs & Hpic).
    rewrite Hs. eexists. split; [reflexivity|]. cbn. auto.
  - unfold ascii_image.SetContent, ascii_image.scaleImage,
      ascii_image.convertToAscii. cbn.
    destruct (Resize (ascii_image.uint (ascii_image.Width m))
                (ascii_image.uint (ascii_image.Height m)) img)
      as [scaled|]; [|reflexivity]. cbn.
    destruct (picture_of_rows scaled
                (ascii_image.Height m) (ascii_image.Width m))
      as (s & Hs & Hpic).
    rewrite Hs. eexists. split; [reflexivity|]. cbn. auto.
Qed.

End ImageFacts.

Lemma X12_convertToAscii_draws_full_picture_witness :
  exists m',
    ascii_image.convertToAscii ascii_image.ramp ascii_image.ramp_gray
      (ascii_image.mkModel (Some tt) EmptyString 2 6) = Some m' /\
    ascii_image.View m' = "IDZI=." ++ nl ++ "IDZI=." ++ nl /\
    is_picture 2 6 (ascii_image.View m').
Proof.
  destruct (X12_convertToAscii_draws_full_picture ascii_image.ramp
              ascii_image.ramp_gray
              (ascii_image.mkModel (Some tt) EmptyString 2 6) tt eq_refl)
    as (m' & Hc & Hpic & _).
  exists m'. split; [exact Hc|]. split; [|exact Hpic].
  vm_compute in Hc. injection Hc as <-. reflexivity.
Defined.

Lemma X13_view_has_the_size_of_the_model_witness :
  exists m',
    ascii_image.SetSize ascii_image.ramp ascii_image.ramp_gray
      ascii_image.ramp_resize 3 1
      (ascii_image.mkModel (Some tt) EmptyString 0 0) = Some m' /\
    ascii_image.Width m' = 3 /\ ascii_image.Height m' = 1 /\
    is_picture 1 3 (ascii_image.View m').
Proof.
  destruct (X13_view_has_the_size_of_the_model ascii_image.ramp
              ascii_image.ramp_gray ascii_image.ramp_resize
              (ascii_image.mkModel (Some tt) EmptyString 0 0) 3 1 tt)
    as (_ & Hsize & _).
  pose proof (Hsize tt eq_refl) as Hscaled. cbn in Hscaled.
  destruct Hscaled as (m' & Hs & Hw & Hh & _ & Hpic).
  exists m'. auto.
Defined.

(** X14. The table index is a monotone function of the gray level: a
    brighter pixel never gets an earlier character.  Black is index 0,
    and index 16 is reached by pure white only, so the last of the 18
    table entries is never used. *)
Theorem X14_gray_levels_in_order (y1 y2 : Byte.byte) :
  (Byte.to_N y1 <= Byte.to_N y2)%N ->
  0 <= ascii_image.pos y1 <= ascii_image.pos y2 /\
  ascii_image.pos y2 <= 16 /\
  (ascii_image.pos y2 = 16 <-> Byte.to_N y2 = 255%N) /\
  (ascii_image.pos y1 = 0 <-> (Byte.to_N y1 < 16)%N).
Proof.
  intros Hle. unfold ascii_image.pos.
  pose proof (Byte.to_N_bounded y1) as Hb1.
  pose proof (Byte.to_N_bounded y2) as Hb2.
  set (a := Z.of_N (Byte.to_N y1)). set (b := Z.of_N (Byte.to_N y2)).
  assert (Ha : 0 <= a <= 255) by (unfold a; lia).
  assert (Hb : 0 <= b <= 255) by (unfold b; lia).
  assert (Hab : a <= b) by (unfold a, b; lia).
  rewrite !Z.mod_small by lia.
  repeat split.
  - apply Z.div_pos; lia.
  - apply Z.div_le_mono; lia.
  - apply Z.div_le_upper_bound; lia.
  - intros H.
    assert (Hq : b * 16 / 255 <= 15 \/ b = 255).
    { destruct (Z.eq_dec b 255); [auto|]. left.
      apply Z.lt_succ_r. apply Z.div_lt_upper_bound; lia. }
    destruct Hq; [lia | unfold b in *; lia].
  - intros H. replace b with 255 by (unfold b; lia). reflexivity.
  - intros H.
    assert (Hlt : a < 16).
    { destruct (Z.lt_ge_cases a 16); [assumption|]. exfalso.
      assert (1 <= a * 16 / 255) by (apply Z.div_le_lower_bound; lia).
      lia. }
    unfold a in Hlt. lia.
  - intros H. apply Z.div_small. unfold a. lia.
Qed.

Lemma X14_gray_levels_in_order_witness :
  ascii_image.pos Byte.x00 = 0 /\
  ascii_image.pos Byte.x80 = 8 /\
  0 <= ascii_image.pos Byte.x00 <= ascii_image.pos Byte.x80.
Proof.
  split; [reflexivity|]. split; [reflexivity|].
  apply (X14_gray_levels_in_order Byte.x00 Byte.x80).
  vm_compute. discriminate.
Defined.

(* ================================================================== *)
(** ** Package [statusbar] *)

Lemma len_zero {A : Type} (l : list A) : GoInt.len l <= 0 -> l = [].
Proof.
  destruct l; [reflexivity|]. unfold GoInt.len. cbn [List.length]. lia.
Qed.

(** X15. The texts of the status bar are computed without a panic
    except in two situations: there are files and a selected file, the
    list of file paths is not empty, and the cursor is not an index of
    it; or the bar is in move mode without an item to move. *)
Theorem X15_statusbar_view_panics (e : statusbar.Env) (m : statusbar.Model) :
  statusbar.texts e m = None <->
  (statusbar.TotalFiles m > 0 /\
   statusbar.SelectedFile m <> None /\
   statusbar.FilePaths m <> [] /\
   ~ (0 <= statusbar.Cursor m < GoInt.len (statusbar.FilePaths m))) \/
  (statusbar.InMoveMode m = true /\ statusbar.ItemToMove m = None).
Proof.
  unfold statusbar.texts.
  destruct (Z.gtb_spec (statusbar.TotalFiles m) 0) as [Ht | Ht];
    destruct (statusbar.SelectedFile m) as [f|] eqn:Hs;
    destruct (Z.gtb_spec (GoInt.len (statusbar.FilePaths m)) 0)
      as [Hl | Hl];
    destruct (GoInt.index (statusbar.FilePaths m) (statusbar.Cursor m))
      as [p|] eqn:Hi;
    destruct (statusbar.InMoveMode m) eqn:Hm;
    destruct (statusbar.ItemToMove m) as [g|] eqn:Hg; cbn;
    match type of Hi with
    | _ = Some _ => apply index_some_range in Hi
    | _ = None => apply index_none in Hi
    end;
    match type of Hl with
    | _ <= 0 => apply len_zero in Hl
    | _ => idtac
    end;
    (split;
     [ intros H; try discriminate;
       first [ right; split; reflexivity
             | left; repeat split;
               [ lia | discriminate
               | intros E; rewrite E in Hl; cbn in Hl; lia
               | exact Hi ] ]
     | intros [(H1 & H2 & H3 & H4) | (H1 & H2)];
       try reflexivity; try discriminate; try congruence;
       exfalso; first [ lia | apply H4; exact Hi | congruence ] ]).
Qed.

(** X16. What the status bar shows.  The move banner overrides the
    command bar, which overrides the file status.  Without files or
    without a selected file the first column is ["N/A"] and the count is
    ["0/0"]; otherwise they are the name of the selected file and
    [cursor+1/total].  The path in the file status is the entry of the
    file paths under the cursor when there are file paths, else the
    working directory, else the current-directory constant; the size is
    the item size when it is set, else the spinner. *)
Theorem X16_statusbar_texts
  (e : statusbar.Env) (m : statusbar.Model) (t : statusbar.Texts) :
  statusbar.texts e m = Some t ->
  statusbar.logo t
  = (if statusbar.ShowIcons m then statusbar.dirGlyph e ++ " FM" else "FM")
  /\
  (statusbar.InMoveMode m = true ->
   exists g, statusbar.ItemToMove m = Some g /\
             statusbar.status t = "Currently moving: " ++ Name g) /\
  (statusbar.InMoveMode m = false -> statusbar.ShowCommandBar m = true ->
   statusbar.status t = statusbar.textinputView e (statusbar.Textinput m))
  /\
  (statusbar.TotalFiles m <= 0 \/ statusbar.SelectedFile m = None ->
   statusbar.selectedFile t = "N/A" /\ statusbar.fileCount t = "0/0" /\
   (statusbar.InMoveMode m = false -> statusbar.ShowCommandBar m = false ->
    statusbar.status t = EmptyString)) /\
  (forall f, statusbar.TotalFiles m > 0 ->
             statusbar.SelectedFile m = Some f ->
     statusbar.selectedFile t = Name f /\
     statusbar.fileCount t
     = statusbar.decimal (GoInt.add (statusbar.Cursor m) 1) ++ "/"
       ++ statusbar.decimal (statusbar.TotalFiles m) /\
     (statusbar.InMoveMode m = false ->
      statusbar.ShowCommandBar m = false ->
      exists size path,
        statusbar.status t
        = size ++ " " ++ statusbar.modeString e f ++ " " ++ path /\
        size = (if (statusbar.ItemSize m =? EmptyString)%string
                then statusbar.spinnerView e else statusbar.ItemSize m) /\
        (statusbar.FilePaths m <> [] ->
         GoInt.index (statusbar.FilePaths m) (statusbar.Cursor m)
         = Some path) /\
        (statusbar.FilePaths m = [] ->
         path = match statusbar.workingDirectory e with
                | Some p => p
                | None => statusbar.CurrentDirectory e
                end))).
Proof.
  unfold statusbar.texts. intros H.
  destruct (Z.gtb_spec (statusbar.TotalFiles m) 0) as [Ht | Ht];
    destruct (statusbar.SelectedFile m) as [f|] eqn:Hs;
    destruct (Z.gtb_spec (GoInt.len (statusbar.FilePaths m)) 0)
      as [Hl | Hl];
    destruct (GoInt.index (statusbar.FilePaths m) (statusbar.Cursor m))
      as [p|] eqn:Hi;
    destruct (statusbar.InMoveMode m) eqn:Hm;
    destruct (statusbar.ItemToMove m) as [g|] eqn:Hg;
    destruct (statusbar.ShowCommandBar m) eqn:Hc;
    destruct (statusbar.ShowIcons m) eqn:Hic; cbn in H;
    try discriminate; inversion H; subst t; clear H; cbn;
    match type of Hl with
    | _ <= 0 => apply len_zero in Hl
    | _ => idtac
    end;
    (split; [reflexivity|]);
    (split; [intros; try discriminate; eauto|]);
    (split; [intros; try discriminate; reflexivity|]);
    (split;
     [ intros [Hx | Hx]; try lia; try discriminate;
       repeat split; intros; try discriminate; reflexivity
     | intros f0 Ht0 Hf0; try lia; try discriminate;
       inversion Hf0; subst f0;
       repeat split; intros; try discriminate;
       do 2 eexists; repeat split; try reflexivity;
       intros Hx; try reflexivity; try congruence;
       try (exfalso; rewrite Hx in Hl; cbn in Hl; lia) ]).
Qed.

Lemma X16_statusbar_texts_witness :
  statusbar.texts statusbar.env0 statusbar.bar5
  = Some (statusbar.mkTexts "b" "4K -rw-r--r-- /home" "2/5" "FM") /\
  statusbar.logo (statusbar.mkTexts "b" "4K -rw-r--r-- /home" "2/5" "FM")
  = "FM".
Proof.
  split; [reflexivity|].
  apply (X16_statusbar_texts statusbar.env0 statusbar.bar5
           (statusbar.mkTexts "b" "4K -rw-r--r-- /home" "2/5" "FM")
           eq_refl).
Defined.

(* ================================================================== *)
(** ** Package [treepreview] *)

Section PaneFacts.

Variable DirEntry : Type.
Variable Look : Type.
Variable hb vb : Look -> Z.
Variable sbh : Z.
Variable curFiles :
  treepreview.Model DirEntry Look -> list DirEntry -> option string.

Let Model := treepreview.Model DirEntry Look.
Let Update := treepreview.Update DirEntry Look hb vb sbh curFiles.

Lemma viewport_SetContent_size (s : string) (v : viewport.Model) :
  viewport.Width (viewport.SetContent s v) = viewport.Width v /\
  viewport.Height (viewport.SetContent s v) = viewport.Height v.
Proof.
  unfold viewport.SetContent.
  match goal with
  | |- context [if ?b then _ else _] => destruct b
  end; cbn; auto.
Qed.

Lemma scroll_frame
  (line : Z -> viewport.Model -> option (viewport.Model * list string))
  (m m' : Model) :
  (forall v v' shown,
     line 1 v = Some (v', shown) ->
     viewport.Width v' = viewport.Width v /\
     viewport.Height v' = viewport.Height v) ->
  treepreview.scroll DirEntry Look curFiles line m = Some m' ->
  treepreview.Files m' = treepreview.Files m /\
  treepreview.Cursor m' = treepreview.Cursor m /\
  treepreview.IsActive m' = treepreview.IsActive m /\
  viewport.Width (treepreview.Viewport m')
  = viewport.Width (treepreview.Viewport m) /\
  viewport.Height (treepreview.Viewport m')
  = viewport.Height (treepreview.Viewport m).
Proof.
  intros Hline H. unfold treepreview.scroll in H.
  destruct (treepreview.IsActive m) eqn:Ha.
  - destruct (line 1 (treepreview.Viewport m)) as [[v shown]|] eqn:El;
      [|discriminate].
    unfold treepreview.SetContent in H.
    match type of H with
    | context [curFiles ?x ?y] => destruct (curFiles x y) as [s|]
    end; [|discriminate].
    inversion H; subst m'; clear H. cbn.
    destruct (viewport_SetContent_size s v) as [-> ->].
    destruct (Hline _ _ _ El) as [-> ->]. auto.
  - inversion H; subst. rewrite Ha. auto.
Qed.

(** X17. Keys and the mouse on the preview pane.  A pane that is not
    active ignores every key and every mouse event: the model is returned
    as it is and nothing is rendered.  On an active pane only the keys
    ["up"], ["k"], ["down"], ["j"] and the wheel do anything, the keys
    doing what the wheel does; whatever the event, the files, the cursor,
    the active flag and the size of the viewport stay as they are. *)
Theorem X17_preview_pane_navigation (m : Model) :
  (treepreview.IsActive m = false ->
   (forall k, Update m (tea.KeyMsg k) = Some m) /\
   (forall t, Update m (tea.MouseMsg t) = Some m)) /\
  (forall k,
     (tea.String k = "up" \/ tea.String k = "k" ->
      Update m (tea.KeyMsg k) = Update m (tea.MouseMsg tea.MouseWheelUp)) /\
     (tea.String k = "down" \/ tea.String k = "j" ->
      Update m (tea.KeyMsg k) = Update m (tea.MouseMsg tea.MouseWheelDown))
     /\
     (tea.String k <> "up" -> tea.String k <> "k" ->
      tea.String k <> "down" -> tea.String k <> "j" ->
      Update m (tea.KeyMsg k) = Some m)) /\
  (forall msg m',
     (forall files, msg <> tea.AppMsg files) ->
     (forall w h, msg <> tea.WindowSizeMsg w h) ->
     Update m msg = Some m' ->
     treepreview.Files m' = treepreview.Files m /\
     treepreview.Cursor m' = treepreview.Cursor m /\
     treepreview.IsActive m' = treepreview.IsActive m /\
     viewport.Width (treepreview.Viewport m')
     = viewport.Width (treepreview.Viewport m) /\
     viewport.Height (treepreview.Viewport m')
     = viewport.Height (treepreview.Viewport m)).
Proof.
  unfold Update. split; [|split].
  - intros Ha. split.
    + intros k. unfold treepreview.Update, treepreview.scroll.
      rewrite Ha.
      repeat match goal with
             | |- context [if ?b then _ else _] => destruct b
             end; reflexivity.
    + intros t. unfold treepreview.Update, treepreview.scroll.
      rewrite Ha. destruct t; reflexivity.
  - intros k. unfold treepreview.Update. repeat split.
    + intros [-> | ->]; reflexivity.
    + intros [-> | ->]; reflexivity.
    + intros H1 H2 H3 H4.
      destruct (String.eqb_spec (tea.String k) "up"); [contradiction|].
      destruct (String.eqb_spec (tea.String k) "k"); [contradiction|].
      destruct (String.eqb_spec (tea.String k) "down"); [contradiction|].
      destruct (String.eqb_spec (tea.String k) "j"); [contradiction|].
      reflexivity.
  - intros msg m' Hno1 Hno2 H.
    assert (Hup : forall v v' shown,
               viewport.LineUp 1 v = Some (v', shown) ->
               viewport.Width v' = viewport.Width v /\
               viewport.Height v' = viewport.Height v).
    { intros v v' shown E.
      destruct (LineUp_frame _ _ _ _ E) as (? & ? & _). auto. }
    assert (Hdown : forall v v' shown,
               viewport.LineDown 1 v = Some (v', shown) ->
               viewport.Width v' = viewport.Width v /\
               viewport.Height v' = viewport.Height v).
    { intros v v' shown E.
      destruct (LineDown_frame _ _ _ _ E) as (? & ? & _). auto. }
    destruct msg as [k | t | w h | files]; unfold treepreview.Update in H.
    + destruct ((tea.String k =? "up") || (tea.String k =? "k"))%string;
        [apply (scroll_frame viewport.LineUp m m' Hup H)|].
      destruct ((tea.String k =? "down") || (tea.String k =? "j"))%string;
        [apply (scroll_frame viewport.LineDown m m' Hdown H)|].
      inversion H; subst. auto.
    + destruct t;
        try (inversion H; subst; auto; fail);
        [ apply (scroll_frame viewport.LineUp m m' Hup H)
        | apply (scroll_frame viewport.LineDown m m' Hdown H) ].
    + exfalso. apply (Hno2 w h). reflexivity.
    + exfalso. apply (Hno1 files). reflexivity.
Qed.

End PaneFacts.

Lemma X17_preview_pane_navigation_witness :
  treepreview.Update string unit (fun _ => 2) (fun _ => 2) 1
    (fun _ names => Some (treepreview.namesRows names))
    (treepreview.pane3 false) (tea.KeyMsg (tea.rune "j"))
  = Some (treepreview.pane3 false) /\
  exists m',
    treepreview.Update string unit (fun _ => 2) (fun _ => 2) 1
      (fun _ names => Some (treepreview.namesRows names))
      (treepreview.pane3 true) (tea.KeyMsg (tea.rune "j")) = Some m' /\
    viewport.YOffset (treepreview.Viewport m') = 1 /\
    treepreview.Files m' = treepreview.Files (treepreview.pane3 true).
Proof.
  split.
  - destruct (X17_preview_pane_navigation string unit (fun _ => 2)
                (fun _ => 2) 1
                (fun _ names => Some (treepreview.namesRows names))
                (treepreview.pane3 false)) as (Hidle & _).
    destruct (Hidle eq_refl) as [Hkey _]. apply Hkey.
  - eexists. split; [vm_compute; reflexivity|]. split; reflexivity.
Defined.

(* ================================================================== *)
(** ** The help flag *)

(** X18. The help flag changes by two keys only: it is raised by the
    help key ["i"] and by nothing else, and it is lowered by the cancel
    key ["esc"] and by nothing else. *)
Theorem X18_help_flag_changes_by_two_keys
  (e : Env) (m : model) (msg : Msg) (m' : model) (cmd : tea.Cmd)
  (calls : list FsCall) :
  Update e m msg = (Some (m', cmd), calls) ->
  ShowHelp m' <> ShowHelp m ->
  exists k, msg = tea.KeyMsg k /\
            ((tea.String k = "i" /\ ShowHelp m' = true) \/
             (tea.String k = "esc" /\ ShowHelp m' = false)).
Proof.
  intros H Hne.
  destruct (Update_inv _ _ _ _ _ _ H)
    as [(_ & -> & _) | (Hq & r & Hd & Hr)]; [congruence|].
  assert (Hm' : ShowHelp m' = ShowHelp (flow_model r)).
  { destruct Hr as [-> | (m1 & -> & _ & ->)]; reflexivity. }
  rewrite Hm' in *. clear Hm' Hr H.
  destruct msg as [k | t | w h | files]; cbn in Hd;
    try (inversion Hd; subst; cbn in Hne; congruence).
  exists k. split; [reflexivity|].
  assert (Hi : keyCase (tea.String k) = CaseHelp -> tea.String k = "i").
  { unfold keyCase. intros Hc. key_cases; try discriminate; assumption. }
  assert (He : keyCase (tea.String k) = CaseEsc -> tea.String k = "esc").
  { unfold keyCase. intros Hc. key_cases; try discriminate; assumption. }
  assert (Hnav : keyCase (tea.String k) = CaseUp \/
                 keyCase (tea.String k) = CaseDown -> False).
  { intros Hud.
    destruct (onKey_nav_flags e m _ r calls Hud Hd)
      as (_ & _ & _ & _ & Hsame). congruence. }
  destruct (keyCase (tea.String k)) eqn:Hk;
    try (exfalso; apply Hnav; auto; fail); clear Hnav;
    try (left; split; [auto|]; inversion Hd; subst; reflexivity);
    try (right; split; [auto|]; inversion Hd; subst; reflexivity);
    exfalso; apply Hne;
    unfold onKey, onEnter, selected, relist in Hd; cbn in Hd;
    break_flow Hd; inversion Hd; subst; reflexivity.
Qed.

Lemma X18_help_flag_changes_by_two_keys_witness :
  exists k, key "i" = tea.KeyMsg k /\
            ((tea.String k = "i" /\
              ShowHelp (set_ShowHelp true
                          (set_Viewport
                             (viewport.SetContent (components_Help env5)
                                (Viewport browse5)) browse5)) = true) \/
             (tea.String k = "esc" /\
              ShowHelp (set_ShowHelp true
                          (set_Viewport
                             (viewport.SetContent (components_Help env5)
                                (Viewport browse5)) browse5)) = false)).
Proof.
  apply (X18_help_flag_changes_by_two_keys env5 browse5 (key "i")
           (set_ShowHelp true
              (set_Viewport
                 (viewport.SetContent (components_Help env5)
                    (Viewport browse5)) browse5))
           tea.Batch []);
    [reflexivity | discriminate].
Defined.
